(** * The ed2k client/server TCP messages: a shallow embedding

    This development embeds [protocol/ed2k/message_c2s_tcp.go]: the eight
    message variants with their [Encode] and [Decode] methods, and proves
    (or refutes) the framing properties stated about them.

    Conventions of the embedding.
    - A Go [[]byte] is a [list byte]; a Go [string] is the list of its bytes.
    - Unsigned fields ([uint16], [uint32]) are integers in [Z]; the wrap-around
      of a conversion such as [uint16(size)] happens where the value is written,
      in the little-endian writer.  Go's [int] is taken to be 64 bits wide, so
      [pos+int(header.Size)] never overflows.
    - [encoding/binary]'s little-endian reads and writes are coqutil's
      [le_combine] and [le_split].
    - [Decode] has a pointer receiver that it updates field by field: it is
      modelled as a function from the receiver's old value to an [outcome]
      holding the receiver's new value and the returned error.  A slice or
      index expression that leaves the buffer is the outcome [Panicked].
    - [Encode] has a pointer receiver that may be nil: [option]. *)

From Stdlib Require Import String ZArith List Lia Bool.
From coqutil Require Import Byte Word.LittleEndianList.
Import ListNotations.
Local Open Scope list_scope.
Local Open Scope Z_scope.

Set Implicit Arguments.

(** ** Buffers *)

Definition len {A : Type} (l : list A) : Z := Z.of_nat (length l).

(** [data[lo:hi]]; the buffer is taken to be full, so a bound past its length
    is out of range. *)
Definition slice (data : list byte) (lo hi : Z) : option (list byte) :=
  if (0 <=? lo) && (lo <=? hi) && (hi <=? len data)
  then Some (firstn (Z.to_nat (hi - lo)) (skipn (Z.to_nat lo) data))
  else None.

(** [data[lo:]] *)
Definition slice_from (data : list byte) (lo : Z) : option (list byte) :=
  slice data lo (len data).

(** [data[i]] *)
Definition index (data : list byte) (i : Z) : option byte :=
  if 0 <=? i then nth_error data (Z.to_nat i) else None.

(** [copy(dst, src)]: the first [min(len(dst), len(src))] bytes of [dst] are
    overwritten; the number of bytes copied is returned too. *)
Definition copy (dst src : list byte) : list byte * Z :=
  let n := Nat.min (length dst) (length src) in
  (firstn n src ++ skipn n dst, Z.of_nat n).

(** ** encoding/binary, little endian *)

Definition PutUint16 (v : Z) : list byte := le_split 2 v.
Definition PutUint32 (v : Z) : list byte := le_split 4 v.
Definition Uint16 (b : list byte) : Z := le_combine b.
Definition Uint32 (b : list byte) : Z := le_combine b.

(** [binary.LittleEndian.PutUint32(data[lo:hi], v)] with [hi = lo + 4]: the
    four bytes are overwritten in place. *)
Definition PutUint32_at (data : list byte) (lo hi : Z) (v : Z) : list byte :=
  firstn (Z.to_nat lo) data ++ PutUint32 v ++ skipn (Z.to_nat hi) data.

(** ** Errors and outcomes *)

Inductive error : Type :=
| ErrShortBuffer
| ErrWrongMessageType
| ErrUnknownTagType
| ErrInvalidLength.

Inductive outcome (A : Type) : Type :=
| Returned (m : A) (err : option error)
| Panicked.

Arguments Panicked {A}.

Definition outcome_map {A B : Type} (f : A -> B) (o : outcome A) : outcome B :=
  match o with
  | Returned m err => Returned (f m) err
  | Panicked => Panicked
  end.

Notation "'let?' x ':=' e 'in' k" :=
  (match e with Some x => k | None => Panicked end)
  (at level 10, x pattern, e at level 100, k at level 200).

(** ** The header *)

Module Header.

(** Modelled from the spec: the [Header] type, [HeaderLength],
    [Header.WriteTo] and [Header.Decode] are not in the source file.  The
    header is a protocol marker byte and a 4-byte little-endian payload
    length; writing it never fails; decoding fails with [ErrShortBuffer]
    if fewer than 5 bytes are available. *)
Record t : Type := mk { Protocol : byte; Size : Z }.

Definition Length : Z := 5.

Definition WriteTo (h : t) : list byte := Protocol h :: PutUint32 (Size h).

Definition Decode (data : list byte) : error + t :=
  if len data <? Length then inl ErrShortBuffer
  else match data with
       | p :: rest => inr (mk p (Uint32 (firstn 4 rest)))
       | [] => inl ErrShortBuffer
       end.

Definition zero : t := mk Byte.x00 0.

End Header.

Definition HeaderLength : Z := Header.Length.

(** ** The message type discriminants *)

(** The discriminant constants ([MessageLoginRequest] and the others) are
    declared outside the source file; the codec is parametric in them. *)
Class MessageTypes : Type := {
  MessageLoginRequest : byte;
  MessageServerMessage : byte;
  MessageIDChange : byte;
  MessageOfferFiles : byte;
  MessageGetServerList : byte;
  MessageServerList : byte;
  MessageServerStatus : byte;
  MessageServerIdent : byte
}.

(** ** Tags and files *)

(** [Tag], [tag.WriteTo] and [ReadTag] are declared outside the source file.
    A [bytes.Reader] over [data[pos:]] is the list of the bytes not read yet:
    [ReadTag] returns the tag and the rest of the reader, or an error. *)
Class TagCodec : Type := {
  Tag : Type;
  Tag_WriteTo : Tag -> error + list byte;
  ReadTag : list byte -> error + (Tag * list byte)
}.

(** [File], [file.WriteTo] and [ReadFile], likewise. *)
Class FileCodec : Type := {
  File : Type;
  File_WriteTo : File -> error + list byte;
  ReadFile : list byte -> error + (File * list byte)
}.

Section Lists.
Context {A : Type}.
Variable write : A -> error + list byte.
Variable read : list byte -> error + (A * list byte).

(** [for _, x := range xs { if _, err = x.WriteTo(buf); err != nil { return } }] *)
Fixpoint write_all (xs : list A) (buf : list byte) : error + list byte :=
  match xs with
  | [] => inr buf
  | x :: xs' =>
    match write x with
    | inl e => inl e
    | inr bs => write_all xs' (buf ++ bs)
    end
  end.

(** [for i := 0; i < count; i++ { x, err := Read(r); if err != nil { return err };
    m.Xs = append(m.Xs, x) }]: the elements appended so far stay in the
    receiver when a read fails. *)
Fixpoint read_all (count : nat) (r : list byte) (xs : list A)
  : list A * option error :=
  match count with
  | O => (xs, None)
  | S count' =>
    match read r with
    | inl e => (xs, Some e)
    | inr (x, r') => read_all count' r' (xs ++ [x])
    end
  end.
End Lists.

(** ** ServerMessage *)

Module ServerMessage.
Section WithTypes.
Context {MT : MessageTypes}.

Record t : Type := mk { Header : Header.t; Messages : list byte }.

Definition Encode (m : option t) : list byte * option error :=
  match m with
  | None => ([], None)
  | Some m =>
    let buf := Header.WriteTo (Header m) in
    let buf := buf ++ [MessageServerMessage] in
    let size := len (Messages m) in
    let buf := buf ++ PutUint16 size in
    let buf := buf ++ Messages m in
    let data := buf in
    let size := len data - HeaderLength in
    (PutUint32_at data 1 5 size, None)
  end.

Definition Decode (m : t) (data : list byte) : outcome t :=
  match Header.Decode data with
  | inl err => Returned m (Some err)
  | inr header =>
    let pos := HeaderLength in
    if (len data <? pos + Header.Size header) || (len data <? pos + 3)
    then Returned m (Some ErrShortBuffer)
    else
      let? b := index data 5 in
      if negb (Byte.eqb b MessageServerMessage)
      then Returned m (Some ErrWrongMessageType)
      else
        let m := mk header (Messages m) in
        let pos := pos + 1 in
        let? s := slice data pos (pos + 2) in
        let size := Uint16 s in
        let pos := pos + 2 in
        if len data <? pos + size
        then Returned m (Some ErrShortBuffer)
        else
          let? s := slice data pos (pos + size) in
          Returned (mk (Header m) s) None
  end.

Definition Type_ (m : t) : byte := MessageServerMessage.

Definition zero : t := mk Header.zero [].

End WithTypes.
End ServerMessage.

(** ** IDChangeMessage *)

Module IDChangeMessage.
Section WithTypes.
Context {MT : MessageTypes}.

Record t : Type := mk { Header : Header.t; ClientID : Z; Bitmap : Z }.

Definition Encode (m : option t) : list byte * option error :=
  match m with
  | None => ([], None)
  | Some m =>
    let buf := Header.WriteTo (Header m) in
    let buf := buf ++ [MessageIDChange] in
    let buf := buf ++ PutUint32 (ClientID m) in
    let buf := buf ++ PutUint32 (Bitmap m) in
    let data := buf in
    let size := len data - HeaderLength in
    (PutUint32_at data 1 5 size, None)
  end.

Definition Decode (m : t) (data : list byte) : outcome t :=
  match Header.Decode data with
  | inl err => Returned m (Some err)
  | inr header =>
    let pos := HeaderLength in
    if (len data <? pos + Header.Size header) || (len data <? pos + 9)
    then Returned m (Some ErrShortBuffer)
    else
      let? b := index data 5 in
      if negb (Byte.eqb b MessageIDChange)
      then Returned m (Some ErrWrongMessageType)
      else
        let m := mk header (ClientID m) (Bitmap m) in
        let pos := pos + 1 in
        let? s := slice data pos (pos + 4) in
        let m := mk (Header m) (Uint32 s) (Bitmap m) in
        let pos := pos + 4 in
        let? s := slice data pos (pos + 4) in
        let m := mk (Header m) (ClientID m) (Uint32 s) in
        Returned m None
  end.

Definition Type_ (m : t) : byte := MessageIDChange.

Definition zero : t := mk Header.zero 0 0.

End WithTypes.
End IDChangeMessage.

(** ** OfferFilesMessage *)

Module OfferFilesMessage.
Section WithTypes.
Context {MT : MessageTypes} {FC : FileCodec}.

Record t : Type := mk { Header : Header.t; Files : list File }.

Definition Encode (m : option t) : list byte * option error :=
  match m with
  | None => ([], None)
  | Some m =>
    let buf := Header.WriteTo (Header m) in
    let buf := buf ++ [MessageOfferFiles] in
    let buf := buf ++ PutUint32 (len (Files m)) in
    match write_all File_WriteTo (Files m) buf with
    | inl err => ([], Some err)
    | inr buf =>
      let data := buf in
      let size := len data - HeaderLength in
      (PutUint32_at data 1 5 size, None)
    end
  end.

Definition Decode (m : t) (data : list byte) : outcome t :=
  match Header.Decode data with
  | inl err => Returned m (Some err)
  | inr header =>
    let pos := HeaderLength in
    if (len data <? pos + Header.Size header) || (len data <? pos + 5)
    then Returned m (Some ErrShortBuffer)
    else
      let? b := index data 5 in
      if negb (Byte.eqb b MessageOfferFiles)
      then Returned m (Some ErrWrongMessageType)
      else
        let m := mk header (Files m) in
        let pos := pos + 1 in
        let? s := slice data pos (pos + 4) in
        let fileCount := Uint32 s in
        let pos := pos + 4 in
        let? r := slice_from data pos in
        let (files, err) := read_all ReadFile (Z.to_nat fileCount) r (Files m) in
        Returned (mk (Header m) files) err
  end.

Definition Type_ (m : t) : byte := MessageOfferFiles.

Definition zero : t := mk Header.zero [].

End WithTypes.
End OfferFilesMessage.

(** ** GetServerListMessage *)

Module GetServerListMessage.
Section WithTypes.
Context {MT : MessageTypes}.

Record t : Type := mk { Header : Header.t }.

Definition Encode (m : option t) : list byte * option error :=
  match m with
  | None => ([], None)
  | Some m =>
    let buf := Header.WriteTo (Header m) in
    let buf := buf ++ [MessageGetServerList] in
    let data := buf in
    let size := len data - HeaderLength in
    (PutUint32_at data 1 5 size, None)
  end.

Definition Decode (m : t) (data : list byte) : outcome t :=
  match Header.Decode data with
  | inl err => Returned m (Some err)
  | inr header =>
    let pos := HeaderLength in
    if (len data <? pos + Header.Size header) || (len data <? pos + 1)
    then Returned m (Some ErrShortBuffer)
    else
      let? b := index data 5 in
      if negb (Byte.eqb b MessageGetServerList)
      then Returned m (Some ErrWrongMessageType)
      else Returned (mk header) None
  end.

Definition Type_ (m : t) : byte := MessageGetServerList.

Definition zero : t := mk Header.zero.

End WithTypes.
End GetServerListMessage.

(** ** net.IP and net.TCPAddr *)

Module net.

Definition IP : Type := list byte.

Definition v4InV6Prefix : list byte :=
  repeat Byte.x00 10 ++ [Byte.xff; Byte.xff].

(** [net.IPv4(a, b, c, d)]: the 16-byte form of an IPv4 address. *)
Definition IPv4 (a b c d : byte) : IP := v4InV6Prefix ++ [a; b; c; d].

Definition IPv4zero : IP := IPv4 Byte.x00 Byte.x00 Byte.x00 Byte.x00.

Definition bytes_eqb (a b : list byte) : bool :=
  (length a =? length b)%nat && forallb (fun p => Byte.eqb (fst p) (snd p)) (combine a b).

(** [ip.To4()]: the 4-byte form of an IPv4 address; nil (here the empty
    slice) when [ip] is not an IPv4 address. *)
Definition To4 (ip : IP) : IP :=
  if (length ip =? 4)%nat then ip
  else if (length ip =? 16)%nat && bytes_eqb (firstn 12 ip) v4InV6Prefix
       then skipn 12 ip
       else [].

Record TCPAddr : Type := mkTCPAddr { TCPAddr_IP : IP; Port : Z; Zone : string }.

End net.

(** ** ServerListMessage *)

Module ServerListMessage.
Section WithTypes.
Context {MT : MessageTypes}.

(** [Servers []*net.TCPAddr]: a nil pointer is [None]. *)
Record t : Type := mk { Header : Header.t; Servers : list (option net.TCPAddr) }.

(** The body of the loop over [m.Servers]. *)
Definition write_addr (buf : list byte) (addr : option net.TCPAddr) : list byte :=
  let addr := match addr with
              | None => net.mkTCPAddr net.IPv4zero 0 EmptyString
              | Some addr => addr
              end in
  let buf := buf ++ net.To4 (net.TCPAddr_IP addr) in
  buf ++ PutUint16 (net.Port addr).

Definition Encode (m : option t) : list byte * option error :=
  match m with
  | None => ([], None)
  | Some m =>
    let buf := Header.WriteTo (Header m) in
    let buf := buf ++ [MessageServerList] in
    let buf := buf ++ [byte.of_Z (len (Servers m))] in
    let buf := fold_left write_addr (Servers m) buf in
    let data := buf in
    let size := len data - HeaderLength in
    (PutUint32_at data 1 5 size, None)
  end.

(** [for i := 0; i < count; i++ { m.Servers = append(...); pos += 6 }] *)
Fixpoint read_addrs (count : nat) (data : list byte) (pos : Z)
         (servers : list (option net.TCPAddr))
  : outcome (list (option net.TCPAddr)) :=
  match count with
  | O => Returned servers None
  | S count' =>
    let? ip := slice data pos (pos + 4) in
    let? s := slice data (pos + 4) (pos + 6) in
    let addr := net.mkTCPAddr ip (Uint16 s) EmptyString in
    read_addrs count' data (pos + 6) (servers ++ [Some addr])
  end.

Definition Decode (m : t) (data : list byte) : outcome t :=
  match Header.Decode data with
  | inl err => Returned m (Some err)
  | inr header =>
    let pos := HeaderLength in
    if (len data <? pos + Header.Size header) || (len data <? pos + 2)
    then Returned m (Some ErrShortBuffer)
    else
      let? b := index data 5 in
      if negb (Byte.eqb b MessageServerList)
      then Returned m (Some ErrWrongMessageType)
      else
        let m := mk header (Servers m) in
        let pos := pos + 1 in
        let? c := index data pos in
        let count := byte.unsigned c in
        let pos := pos + 1 in
        if len data <? pos + count * 6
        then Returned m (Some ErrShortBuffer)
        else
          match read_addrs (Z.to_nat count) data pos (Servers m) with
          | Returned servers err => Returned (mk (Header m) servers) err
          | Panicked => Panicked
          end
  end.

Definition Type_ (m : t) : byte := MessageServerList.

Definition zero : t := mk Header.zero [].

End WithTypes.
End ServerListMessage.

(** ** ServerStatusMessage *)

Module ServerStatusMessage.
Section WithTypes.
Context {MT : MessageTypes}.

Record t : Type := mk { Header : Header.t; UserCount : Z; FileCount : Z }.

Definition Encode (m : option t) : list byte * option error :=
  match m with
  | None => ([], None)
  | Some m =>
    let buf := Header.WriteTo (Header m) in
    let buf := buf ++ [MessageServerStatus] in
    let buf := buf ++ PutUint32 (UserCount m) in
    let buf := buf ++ PutUint32 (FileCount m) in
    let data := buf in
    let size := len data - HeaderLength in
    (PutUint32_at data 1 5 size, None)
  end.

Definition Decode (m : t) (data : list byte) : outcome t :=
  match Header.Decode data with
  | inl err => Returned m (Some err)
  | inr header =>
    let pos := HeaderLength in
    if (len data <? pos + Header.Size header) || (len data <? pos + 9)
    then Returned m (Some ErrShortBuffer)
    else
      let? b := index data 5 in
      if negb (Byte.eqb b MessageServerStatus)
      then Returned m (Some ErrWrongMessageType)
      else
        let m := mk header (UserCount m) (FileCount m) in
        let pos := pos + 1 in
        let? s := slice data pos (pos + 4) in
        let m := mk (Header m) (Uint32 s) (FileCount m) in
        let pos := pos + 4 in
        let? s := slice data pos (pos + 4) in
        let m := mk (Header m) (UserCount m) (Uint32 s) in
        Returned m None
  end.

Definition Type_ (m : t) : byte := MessageServerStatus.

Definition zero : t := mk Header.zero 0 0.

End WithTypes.
End ServerStatusMessage.

(** ** ServerIdentMessage *)

Module ServerIdentMessage.
Section WithTypes.
Context {MT : MessageTypes} {TC : TagCodec}.

(** [Hash [16]byte] is a list of 16 bytes. *)
Record t : Type :=
  mk { Header : Header.t; Hash : list byte; IP : Z; Port : Z; Tags : list Tag }.

Definition Encode (m : option t) : list byte * option error :=
  match m with
  | None => ([], None)
  | Some m =>
    let buf := Header.WriteTo (Header m) in
    let buf := buf ++ [MessageServerIdent] in
    let buf := buf ++ Hash m in
    let buf := buf ++ PutUint32 (IP m) in
    let buf := buf ++ PutUint16 (Port m) in
    let buf := buf ++ PutUint32 (len (Tags m)) in
    match write_all Tag_WriteTo (Tags m) buf with
    | inl err => ([], Some err)
    | inr buf =>
      let data := buf in
      let size := len data - HeaderLength in
      (PutUint32_at data 1 5 size, None)
    end
  end.

(** The length check reads [m.Header.Size], the receiver's header, not the
    local [header] that was just decoded. *)
Definition Decode (m : t) (data : list byte) : outcome t :=
  match Header.Decode data with
  | inl err => Returned m (Some err)
  | inr header =>
    let pos := HeaderLength in
    if (len data <? pos + Header.Size (Header m)) || (len data <? pos + 29)
    then Returned m (Some ErrShortBuffer)
    else
      let? b := index data 5 in
      if negb (Byte.eqb b MessageServerIdent)
      then Returned m (Some ErrWrongMessageType)
      else
        let m := mk header (Hash m) (IP m) (Port m) (Tags m) in
        let pos := pos + 1 in
        let? s := slice_from data pos in
        let (hash, n) := copy (Hash m) s in
        let m := mk (Header m) hash (IP m) (Port m) (Tags m) in
        let pos := pos + n in
        let? s := slice data pos (pos + 4) in
        let m := mk (Header m) (Hash m) (Uint32 s) (Port m) (Tags m) in
        let pos := pos + 4 in
        let? s := slice data pos (pos + 2) in
        let m := mk (Header m) (Hash m) (IP m) (Uint16 s) (Tags m) in
        let pos := pos + 2 in
        let? s := slice data pos (pos + 4) in
        let tagCount := Uint32 s in
        let pos := pos + 4 in
        let? r := slice_from data pos in
        let (tags, err) := read_all ReadTag (Z.to_nat tagCount) r (Tags m) in
        Returned (mk (Header m) (Hash m) (IP m) (Port m) tags) err
  end.

Definition Type_ (m : t) : byte := MessageServerIdent.

Definition zero : t := mk Header.zero (repeat Byte.x00 16) 0 0 [].

End WithTypes.
End ServerIdentMessage.

(** ** LoginMessage *)

Module LoginMessage.
Section WithTypes.
Context {MT : MessageTypes} {TC : TagCodec}.

(** [UID] is a 16-byte array and [m.UID.Bytes()] its bytes (modelled from
    the spec: the identifier is encoded by direct copy). *)
Record t : Type :=
  mk { Header : Header.t; UID : list byte; ClientID : Z; Port : Z; Tags : list Tag }.

Definition Encode (m : option t) : list byte * option error :=
  match m with
  | None => ([], None)
  | Some m =>
    let buf := Header.WriteTo (Header m) in
    let buf := buf ++ [MessageLoginRequest] in
    let buf := buf ++ UID m in
    let buf := buf ++ PutUint32 (ClientID m) in
    let buf := buf ++ PutUint16 (Port m) in
    let buf := buf ++ PutUint32 (len (Tags m)) in
    match write_all Tag_WriteTo (Tags m) buf with
    | inl err => ([], Some err)
    | inr buf =>
      let data := buf in
      let size := len data - HeaderLength in
      (PutUint32_at data 1 5 size, None)
    end
  end.

Definition Decode (m : t) (data : list byte) : outcome t :=
  match Header.Decode data with
  | inl err => Returned m (Some err)
  | inr header =>
    let pos := HeaderLength in
    if (len data <? pos + Header.Size header) || (len data <? pos + 1 + 16 + 4 + 2 + 4)
    then Returned m (Some ErrShortBuffer)
    else
      let? b := index data 5 in
      if negb (Byte.eqb b MessageLoginRequest)
      then Returned m (Some ErrWrongMessageType)
      else
        let m := mk header (UID m) (ClientID m) (Port m) (Tags m) in
        let pos := pos + 1 in
        let? s := slice data pos (pos + 16) in
        let m := mk (Header m) (fst (copy (UID m) s)) (ClientID m) (Port m) (Tags m) in
        let pos := pos + 16 in
        let? s := slice data pos (pos + 4) in
        let m := mk (Header m) (UID m) (Uint32 s) (Port m) (Tags m) in
        let pos := pos + 4 in
        let? s := slice data pos (pos + 2) in
        let m := mk (Header m) (UID m) (ClientID m) (Uint16 s) (Tags m) in
        let pos := pos + 2 in
        let? s := slice data pos (pos + 4) in
        let tagCount := Uint32 s in
        let pos := pos + 4 in
        let? r := slice_from data pos in
        let (tags, err) := read_all ReadTag (Z.to_nat tagCount) r (Tags m) in
        Returned (mk (Header m) (UID m) (ClientID m) (Port m) tags) err
  end.

Definition Type_ (m : t) : byte := MessageLoginRequest.

Definition zero : t := mk Header.zero (repeat Byte.x00 16) 0 0 [].

End WithTypes.
End LoginMessage.

(** ** The message interface *)

Section Messages.
Context {MT : MessageTypes} {TC : TagCodec} {FC : FileCodec}.

(** A value of any of the eight variants that implement [Encode], [Decode]
    and [Type]. *)
Inductive Message : Type :=
| Login (m : LoginMessage.t)
| Server (m : ServerMessage.t)
| IDChange (m : IDChangeMessage.t)
| OfferFiles (m : OfferFilesMessage.t)
| GetServerList (m : GetServerListMessage.t)
| ServerList (m : ServerListMessage.t)
| ServerStatus (m : ServerStatusMessage.t)
| ServerIdent (m : ServerIdentMessage.t).

(** [m.Encode()] on a non-nil receiver. *)
Definition Encode (m : Message) : list byte * option error :=
  match m with
  | Login m => LoginMessage.Encode (Some m)
  | Server m => ServerMessage.Encode (Some m)
  | IDChange m => IDChangeMessage.Encode (Some m)
  | OfferFiles m => OfferFilesMessage.Encode (Some m)
  | GetServerList m => GetServerListMessage.Encode (Some m)
  | ServerList m => ServerListMessage.Encode (Some m)
  | ServerStatus m => ServerStatusMessage.Encode (Some m)
  | ServerIdent m => ServerIdentMessage.Encode (Some m)
  end.

(** [m.Decode(data)]: the receiver after the call, and the error. *)
Definition Decode (m : Message) (data : list byte) : outcome Message :=
  match m with
  | Login m => outcome_map Login (LoginMessage.Decode m data)
  | Server m => outcome_map Server (ServerMessage.Decode m data)
  | IDChange m => outcome_map IDChange (IDChangeMessage.Decode m data)
  | OfferFiles m => outcome_map OfferFiles (OfferFilesMessage.Decode m data)
  | GetServerList m => outcome_map GetServerList (GetServerListMessage.Decode m data)
  | ServerList m => outcome_map ServerList (ServerListMessage.Decode m data)
  | ServerStatus m => outcome_map ServerStatus (ServerStatusMessage.Decode m data)
  | ServerIdent m => outcome_map ServerIdent (ServerIdentMessage.Decode m data)
  end.

Definition Type_ (m : Message) : byte :=
  match m with
  | Login m => LoginMessage.Type_ m
  | Server m => ServerMessage.Type_ m
  | IDChange m => IDChangeMessage.Type_ m
  | OfferFiles m => OfferFilesMessage.Type_ m
  | GetServerList m => GetServerListMessage.Type_ m
  | ServerList m => ServerListMessage.Type_ m
  | ServerStatus m => ServerStatusMessage.Type_ m
  | ServerIdent m => ServerIdentMessage.Type_ m
  end.

Definition header_of (m : Message) : Header.t :=
  match m with
  | Login m => LoginMessage.Header m
  | Server m => ServerMessage.Header m
  | IDChange m => IDChangeMessage.Header m
  | OfferFiles m => OfferFilesMessage.Header m
  | GetServerList m => GetServerListMessage.Header m
  | ServerList m => ServerListMessage.Header m
  | ServerStatus m => ServerStatusMessage.Header m
  | ServerIdent m => ServerIdentMessage.Header m
  end.

(** The constant of the variant's static length check,
    [len(data) < pos + k] with [pos = HeaderLength]. *)
Definition min_length (m : Message) : Z :=
  match m with
  | Login _ => HeaderLength + 1 + 16 + 4 + 2 + 4
  | Server _ => HeaderLength + 3
  | IDChange _ => HeaderLength + 9
  | OfferFiles _ => HeaderLength + 5
  | GetServerList _ => HeaderLength + 1
  | ServerList _ => HeaderLength + 2
  | ServerStatus _ => HeaderLength + 9
  | ServerIdent _ => HeaderLength + 29
  end.

(** The payload length that the variant's dynamic length check compares
    the buffer with: the decoded header's, except for [ServerIdentMessage],
    which reads the receiver's. *)
Definition checked_size (m : Message) (header : Header.t) : Z :=
  match m with
  | ServerIdent m => Header.Size (ServerIdentMessage.Header m)
  | _ => Header.Size header
  end.

(** The verdict of the validation that opens every [Decode]: the header,
    the two length checks, the discriminant. *)
Definition precheck (m : Message) (data : list byte) : option error :=
  match Header.Decode data with
  | inl err => Some err
  | inr header =>
    if (len data <? HeaderLength + checked_size m header) || (len data <? min_length m)
    then Some ErrShortBuffer
    else if Byte.eqb (nth 5%nat data Byte.x00) (Type_ m) then None
         else Some ErrWrongMessageType
  end.

(** The discriminants of the eight variants. *)
Definition discriminants : list byte :=
  [MessageLoginRequest; MessageServerMessage; MessageIDChange; MessageOfferFiles;
   MessageGetServerList; MessageServerList; MessageServerStatus; MessageServerIdent].

End Messages.

(** ** Instances used to run the codec on concrete buffers *)

(** The discriminants of the eDonkey protocol. *)
Definition ed2k_types : MessageTypes := {|
  MessageLoginRequest := Byte.x01;
  MessageServerMessage := Byte.x38;
  MessageIDChange := Byte.x40;
  MessageOfferFiles := Byte.x15;
  MessageGetServerList := Byte.x14;
  MessageServerList := Byte.x32;
  MessageServerStatus := Byte.x34;
  MessageServerIdent := Byte.x41
|}.

(** A tag codec with a single tag form: a type byte [0x89], a one-byte key
    and a one-byte value. *)
Definition byte_tags : TagCodec := {|
  Tag := byte * byte;
  Tag_WriteTo := fun t => inr [Byte.x89; fst t; snd t];
  ReadTag := fun r =>
    match r with
    | ty :: k :: v :: rest =>
      if Byte.eqb ty Byte.x89 then inr ((k, v), rest) else inl ErrUnknownTagType
    | _ => inl ErrShortBuffer
    end
|}.

(** A file codec whose entries carry two bytes. *)
Definition byte_files : FileCodec := {|
  File := byte * byte;
  File_WriteTo := fun f => inr [fst f; snd f];
  ReadFile := fun r =>
    match r with
    | a :: b :: rest => inr ((a, b), rest)
    | _ => inl ErrShortBuffer
    end
|}.

(** [B z] is the byte of value [z]. *)
Definition B (z : Z) : byte := byte.of_Z z.

(** ** The shape of an encoded message *)

(** What every [Encode] returns: the protocol marker, the patched length, the
    discriminant and the body. *)
Definition frame (p : byte) (ty : byte) (body : list byte) : list byte :=
  p :: PutUint32 (1 + len body) ++ ty :: body.

(** A codec round-trips when reading what was written for [x], whatever
    follows it in the reader, gives [x] back and leaves what follows. *)
Definition codec_roundtrip {A : Type} (write : A -> error + list byte)
           (read : list byte -> error + (A * list byte)) : Prop :=
  forall x bs rest, write x = inr bs -> read (bs ++ rest) = inr (x, rest).

(** The six bytes (for an IPv4 address) that [ServerListMessage.Encode]
    writes for one entry of [m.Servers]. *)
Definition addr_bytes (addr : option net.TCPAddr) : list byte :=
  ServerListMessage.write_addr [] addr.

(** An entry of [m.Servers] that [ServerListMessage.Decode] can give back: a
    non-nil address in the 4-byte form, with a 16-bit port and no zone. *)
Definition wire_addr (addr : option net.TCPAddr) : Prop :=
  match addr with
  | Some a =>
    length (net.TCPAddr_IP a) = 4%nat /\ 0 <= net.Port a < 2 ^ 16 /\ net.Zone a = EmptyString
  | None => False
  end.

Section RoundTrip.
Context {MT : MessageTypes} {TC : TagCodec} {FC : FileCodec}.

(** A zero-valued receiver of the variant of [m]: [var r LoginMessage],
    and so on. *)
Definition zero_of (m : Message) : Message :=
  match m with
  | Login _ => Login LoginMessage.zero
  | Server _ => Server ServerMessage.zero
  | IDChange _ => IDChange IDChangeMessage.zero
  | OfferFiles _ => OfferFiles OfferFilesMessage.zero
  | GetServerList _ => GetServerList GetServerListMessage.zero
  | ServerList _ => ServerList ServerListMessage.zero
  | ServerStatus _ => ServerStatus ServerStatusMessage.zero
  | ServerIdent _ => ServerIdent ServerIdentMessage.zero
  end.

(** [m] with its header replaced. *)
Definition with_header (m : Message) (h : Header.t) : Message :=
  match m with
  | Login m =>
    Login (LoginMessage.mk h (LoginMessage.UID m) (LoginMessage.ClientID m)
                           (LoginMessage.Port m) (LoginMessage.Tags m))
  | Server m => Server (ServerMessage.mk h (ServerMessage.Messages m))
  | IDChange m =>
    IDChange (IDChangeMessage.mk h (IDChangeMessage.ClientID m) (IDChangeMessage.Bitmap m))
  | OfferFiles m => OfferFiles (OfferFilesMessage.mk h (OfferFilesMessage.Files m))
  | GetServerList m => GetServerList (GetServerListMessage.mk h)
  | ServerList m => ServerList (ServerListMessage.mk h (ServerListMessage.Servers m))
  | ServerStatus m =>
    ServerStatus (ServerStatusMessage.mk h (ServerStatusMessage.UserCount m)
                                         (ServerStatusMessage.FileCount m))
  | ServerIdent m =>
    ServerIdent (ServerIdentMessage.mk h (ServerIdentMessage.Hash m)
                                       (ServerIdentMessage.IP m)
                                       (ServerIdentMessage.Port m)
                                       (ServerIdentMessage.Tags m))
  end.

(** The values that the wire format can carry: the integers fit their
    unsigned types, the arrays have 16 bytes, the counts fit their
    prefixes, the text of a [ServerMessage] fits its 16-bit length, the
    servers are [wire_addr]esses. *)
Definition in_domain (m : Message) : Prop :=
  match m with
  | Login m =>
    length (LoginMessage.UID m) = 16%nat
    /\ 0 <= LoginMessage.ClientID m < 2 ^ 32
    /\ 0 <= LoginMessage.Port m < 2 ^ 16
    /\ len (LoginMessage.Tags m) < 2 ^ 32
  | Server m => len (ServerMessage.Messages m) < 2 ^ 16
  | IDChange m =>
    0 <= IDChangeMessage.ClientID m < 2 ^ 32 /\ 0 <= IDChangeMessage.Bitmap m < 2 ^ 32
  | OfferFiles m => len (OfferFilesMessage.Files m) < 2 ^ 32
  | GetServerList _ => True
  | ServerList m =>
    len (ServerListMessage.Servers m) < 256
    /\ Forall wire_addr (ServerListMessage.Servers m)
  | ServerStatus m =>
    0 <= ServerStatusMessage.UserCount m < 2 ^ 32
    /\ 0 <= ServerStatusMessage.FileCount m < 2 ^ 32
  | ServerIdent m =>
    length (ServerIdentMessage.Hash m) = 16%nat
    /\ 0 <= ServerIdentMessage.IP m < 2 ^ 32
    /\ 0 <= ServerIdentMessage.Port m < 2 ^ 16
    /\ len (ServerIdentMessage.Tags m) < 2 ^ 32
  end.

End RoundTrip.

(** ** Receivers and variants *)

Section Receivers.
Context {MT : MessageTypes} {TC : TagCodec} {FC : FileCodec}.

(** The [[16]byte] fields of a receiver hold 16 bytes. *)
Definition array_fields (m : Message) : Prop :=
  match m with
  | Login m => length (LoginMessage.UID m) = 16%nat
  | ServerIdent m => length (ServerIdentMessage.Hash m) = 16%nat
  | _ => True
  end.

(** The variants whose [Decode] reads no tag and no file. *)
Definition tagless (m : Message) : bool :=
  match m with
  | Login _ | OfferFiles _ | ServerIdent _ => false
  | _ => true
  end.

(** The variants whose [Decode] assigns every field and reads nothing of the
    receiver. *)
Definition overwritten (m : Message) : bool :=
  match m with
  | Server _ | IDChange _ | GetServerList _ | ServerStatus _ => true
  | _ => false
  end.

End Receivers.

(** The error of the first element that fails to write, if any. *)
Fixpoint first_error {A : Type} (write : A -> error + list byte) (xs : list A)
  : option error :=
  match xs with
  | [] => None
  | x :: xs' =>
    match write x with
    | inl e => Some e
    | inr _ => first_error write xs'
    end
  end.

Section WriteErrors.
Context {MT : MessageTypes} {TC : TagCodec} {FC : FileCodec}.

Definition first_write_error (m : Message) : option error :=
  match m with
  | Login m => first_error Tag_WriteTo (LoginMessage.Tags m)
  | OfferFiles m => first_error File_WriteTo (OfferFilesMessage.Files m)
  | ServerIdent m => first_error Tag_WriteTo (ServerIdentMessage.Tags m)
  | _ => None
  end.

End WriteErrors.

(** A tag codec whose writer can fail: a tag is an integer value, written
    as type byte [0x89], key [0x01] and one value byte, and refused with
    [ErrInvalidLength] when it does not fit a byte. *)
Definition small_tags : TagCodec := {|
  Tag := Z;
  Tag_WriteTo := fun v =>
    if (0 <=? v) && (v <? 256) then inr [Byte.x89; Byte.x01; byte.of_Z v]
    else inl ErrInvalidLength;
  ReadTag := fun r =>
    match r with
    | ty :: k :: v :: rest =>
      if Byte.eqb ty Byte.x89 then inr (byte.unsigned v, rest) else inl ErrUnknownTagType
    | _ => inl ErrShortBuffer
    end
|}.

(** ** The receiver after a late failure *)

(** [read_seq read r xs rest]: starting from the reader [r], successive reads
    succeed and give the elements [xs], leaving the reader [rest]. *)
Inductive read_seq {A : Type} (read : list byte -> error + (A * list byte))
  : list byte -> list A -> list byte -> Prop :=
| read_seq_nil (r : list byte) : read_seq read r [] r
| read_seq_cons (r r' rest : list byte) (x : A) (xs : list A) :
    read r = inr (x, r') ->
    read_seq read r' xs rest ->
    read_seq read r (x :: xs) rest.

Section LateFailure.
Context {TC : TagCodec} {FC : FileCodec}.

(** What the receiver [m'] holds when [Decode], called on the receiver [m]
    and the buffer [data], returns the error [e] after its opening
    validation.
    - [ServerMessage] and [ServerListMessage] fail their second length
      check: the header is the decoded one, the rest is as it was.
    - [LoginMessage], [ServerIdentMessage] and [OfferFilesMessage] fail to
      read a tag or a file: the header and the fixed fields are the ones
      decoded from the buffer, and the list is the receiver's old list
      followed by the elements that were read before the read that failed
      with [e], fewer than the declared count.
    - The other variants have no late failure. *)
Definition late_failure (m : Message) (data : list byte) (e : error) (m' : Message)
  : Prop :=
  exists header,
    Header.Decode data = inr header
    /\ match m with
       | Login m =>
         exists uid c port count r new rest,
           slice data 6 22 = Some uid
           /\ slice data 22 26 = Some c
           /\ slice data 26 28 = Some port
           /\ slice data 28 32 = Some count
           /\ slice_from data 32 = Some r
           /\ read_seq ReadTag r new rest
           /\ ReadTag rest = inl e
           /\ len new < Uint32 count
           /\ (length (LoginMessage.UID m) = 16%nat ->
               fst (copy (LoginMessage.UID m) uid) = uid)
           /\ m' = Login (LoginMessage.mk header (fst (copy (LoginMessage.UID m) uid))
                                          (Uint32 c) (Uint16 port)
                                          (LoginMessage.Tags m ++ new))
       | Server m =>
         exists s,
           slice data 6 8 = Some s
           /\ len data < 8 + Uint16 s
           /\ e = ErrShortBuffer
           /\ m' = Server (ServerMessage.mk header (ServerMessage.Messages m))
       | OfferFiles m =>
         exists count r new rest,
           slice data 6 10 = Some count
           /\ slice_from data 10 = Some r
           /\ read_seq ReadFile r new rest
           /\ ReadFile rest = inl e
           /\ len new < Uint32 count
           /\ m' = OfferFiles (OfferFilesMessage.mk header
                                                    (OfferFilesMessage.Files m ++ new))
       | ServerList m =>
         exists c,
           index data 6 = Some c
           /\ len data < 7 + byte.unsigned c * 6
           /\ e = ErrShortBuffer
           /\ m' = ServerList (ServerListMessage.mk header (ServerListMessage.Servers m))
       | ServerIdent m =>
         exists s hash n ip port count r new rest,
           slice_from data 6 = Some s
           /\ copy (ServerIdentMessage.Hash m) s = (hash, n)
           /\ slice data (6 + n) (6 + n + 4) = Some ip
           /\ slice data (6 + n + 4) (6 + n + 4 + 2) = Some port
           /\ slice data (6 + n + 4 + 2) (6 + n + 4 + 2 + 4) = Some count
           /\ slice_from data (6 + n + 4 + 2 + 4) = Some r
           /\ read_seq ReadTag r new rest
           /\ ReadTag rest = inl e
           /\ len new < Uint32 count
           /\ (length (ServerIdentMessage.Hash m) = 16%nat ->
               n = 16 /\ slice data 6 22 = Some hash)
           /\ m' = ServerIdent (ServerIdentMessage.mk header hash (Uint32 ip) (Uint16 port)
                                                      (ServerIdentMessage.Tags m ++ new))
       | IDChange _ | GetServerList _ | ServerStatus _ => False
       end.

End LateFailure.

(** * Properties *)

(** ** Buffers and little-endian integers *)

Lemma len_nonneg {A : Type} (l : list A) : 0 <= len l.
Proof. unfold len; lia. Qed.

Lemma len_app {A : Type} (l1 l2 : list A) : len (l1 ++ l2) = len l1 + len l2.
Proof. unfold len; rewrite length_app; lia. Qed.

Lemma len_cons {A : Type} (x : A) (l : list A) : len (x :: l) = 1 + len l.
Proof. unfold len; simpl length; lia. Qed.

Lemma len_nil {A : Type} : len (@nil A) = 0.
Proof. reflexivity. Qed.

Lemma len_PutUint32 v : len (PutUint32 v) = 4.
Proof. unfold len, PutUint32; rewrite length_le_split; reflexivity. Qed.

Lemma len_PutUint16 v : len (PutUint16 v) = 2.
Proof. unfold len, PutUint16; rewrite length_le_split; reflexivity. Qed.

Lemma Uint32_PutUint32 v : Uint32 (PutUint32 v) = v mod 2 ^ 32.
Proof. unfold Uint32, PutUint32; rewrite le_combine_split; reflexivity. Qed.

Lemma Uint16_PutUint16 v : Uint16 (PutUint16 v) = v mod 2 ^ 16.
Proof. unfold Uint16, PutUint16; rewrite le_combine_split; reflexivity. Qed.

Lemma slice_in_range data lo hi :
  0 <= lo -> lo <= hi -> hi <= len data ->
  slice data lo hi = Some (firstn (Z.to_nat (hi - lo)) (skipn (Z.to_nat lo) data)).
Proof.
  intros H0 H1 H2; unfold slice.
  apply Z.leb_le in H0, H1, H2; rewrite H0, H1, H2; reflexivity.
Qed.

Lemma index_in_range data i :
  0 <= i < len data -> index data i = Some (nth (Z.to_nat i) data Byte.x00).
Proof.
  intros [H0 H1]; unfold index.
  apply Z.leb_le in H0 as H0'; rewrite H0'.
  apply nth_error_nth'; unfold len in H1; lia.
Qed.

(** A slice that covers the middle one of three segments. *)
Lemma slice_app pre x post lo hi :
  lo = len pre -> hi = len pre + len x ->
  slice (pre ++ x ++ post) lo hi = Some x.
Proof.
  intros -> ->.
  rewrite slice_in_range.
  - f_equal. unfold len.
    replace (Z.to_nat (Z.of_nat (length pre) + Z.of_nat (length x) - Z.of_nat (length pre)))
      with (length x) by lia.
    rewrite Nat2Z.id, skipn_app, skipn_all, Nat.sub_diag; simpl.
    rewrite firstn_app, firstn_all, Nat.sub_diag; simpl.
    apply app_nil_r.
  - apply len_nonneg.
  - pose proof (len_nonneg x); lia.
  - rewrite !len_app; pose proof (len_nonneg post); lia.
Qed.

Lemma slice_from_app pre post lo :
  lo = len pre -> slice_from (pre ++ post) lo = Some post.
Proof.
  intros ->; unfold slice_from.
  replace (pre ++ post) with (pre ++ post ++ []) by (rewrite app_nil_r; reflexivity).
  apply slice_app; [reflexivity|].
  rewrite !len_app, len_nil; lia.
Qed.

Lemma Header_Decode_short data :
  len data < HeaderLength -> Header.Decode data = inl ErrShortBuffer.
Proof.
  intros H; unfold Header.Decode.
  apply Z.ltb_lt in H; unfold HeaderLength in H; rewrite H; reflexivity.
Qed.

Lemma Header_Decode_inl data e :
  Header.Decode data = inl e -> e = ErrShortBuffer /\ len data < HeaderLength.
Proof.
  unfold Header.Decode, HeaderLength.
  destruct (len data <? Header.Length) eqn:E.
  - intros [= <-]; split; [reflexivity | now apply Z.ltb_lt].
  - destruct data; [|discriminate].
    apply Z.ltb_ge in E; unfold Header.Length, len in E; simpl in E; lia.
Qed.

Lemma Header_Decode_inr data h :
  Header.Decode data = inr h -> HeaderLength <= len data.
Proof.
  unfold Header.Decode, HeaderLength.
  destruct (len data <? Header.Length) eqn:E; [discriminate|].
  intros _; now apply Z.ltb_ge.
Qed.

(** ** The validation that opens every Decode *)

Ltac unfold_Decode :=
  cbv beta iota zeta delta
    [Decode LoginMessage.Decode ServerMessage.Decode IDChangeMessage.Decode
     OfferFilesMessage.Decode GetServerListMessage.Decode ServerListMessage.Decode
     ServerStatusMessage.Decode ServerIdentMessage.Decode].

Section Validation.
Context {MT : MessageTypes} {TC : TagCodec} {FC : FileCodec}.

Lemma min_length_ge_6 (m : Message) : 6 <= min_length m.
Proof. destruct m; cbv; discriminate. Qed.

(** A decode that fails in the opening validation returns its error and
    leaves the receiver as it was. *)
Lemma Decode_precheck_fail (m : Message) (data : list byte) (e : error) :
  precheck m data = Some e -> Decode m data = Returned m (Some e).
Proof.
  unfold precheck.
  destruct (Header.Decode data) as [err|header] eqn:HD.
  - intros [= <-]; destruct m; unfold_Decode; rewrite HD; reflexivity.
  - destruct ((len data <? HeaderLength + checked_size m header)
              || (len data <? min_length m)) eqn:G.
    + intros [= <-].
      destruct m; cbn [checked_size min_length] in G;
        unfold_Decode; rewrite HD; cbv beta iota; rewrite G; reflexivity.
    + apply orb_false_iff in G as G'; destruct G' as [_ G2].
      apply Z.ltb_ge in G2. pose proof (min_length_ge_6 m) as H6.
      destruct (Byte.eqb (nth 5 data Byte.x00) (Type_ m)) eqn:T; [discriminate|].
      intros [= <-].
      assert (I : index data 5 = Some (nth 5%nat data Byte.x00))
        by (apply (@index_in_range data 5); lia).
      destruct m; cbn [checked_size min_length] in G; cbn [Type_] in T;
        unfold_Decode; rewrite HD; cbv beta iota; rewrite G, I; cbv beta iota;
        [ unfold LoginMessage.Type_ in T | unfold ServerMessage.Type_ in T
        | unfold IDChangeMessage.Type_ in T | unfold OfferFilesMessage.Type_ in T
        | unfold GetServerListMessage.Type_ in T | unfold ServerListMessage.Type_ in T
        | unfold ServerStatusMessage.Type_ in T | unfold ServerIdentMessage.Type_ in T ];
        rewrite T; reflexivity.
Qed.

Lemma precheck_pass (m : Message) (data : list byte) :
  precheck m data = None ->
  exists header,
    Header.Decode data = inr header
    /\ (len data <? HeaderLength + checked_size m header) || (len data <? min_length m) = false
    /\ index data 5 = Some (Type_ m).
Proof.
  unfold precheck.
  destruct (Header.Decode data) as [err|header] eqn:HD; [discriminate|].
  destruct ((len data <? HeaderLength + checked_size m header)
            || (len data <? min_length m)) eqn:G; [discriminate|].
  destruct (Byte.eqb (nth 5 data Byte.x00) (Type_ m)) eqn:T; [|discriminate].
  intros _; exists header; split; [reflexivity|]; split; [exact G|].
  apply orb_false_iff in G as [_ G2]; apply Z.ltb_ge in G2.
  pose proof (min_length_ge_6 m).
  rewrite (@index_in_range data 5) by lia.
  f_equal; apply Byte.byte_dec_bl; exact T.
Qed.

(** Once the opening validation has passed, the receiver's header is the
    decoded one in whatever [Decode] returns. *)
Lemma Decode_precheck_pass (m m' : Message) (data : list byte) (err : option error) :
  precheck m data = None ->
  Decode m data = Returned m' err ->
  Header.Decode data = inr (header_of m').
Proof.
  intros P; destruct (precheck_pass m data P) as (header & HD & G & I).
  rewrite HD.
  assert (E : Byte.eqb (Type_ m) (Type_ m) = true) by (apply Byte.byte_dec_lb; reflexivity).
  destruct m; cbn [checked_size min_length Type_] in G, I, E;
    unfold_Decode; rewrite HD; cbv beta iota; rewrite G, I; cbv beta iota;
    [ unfold LoginMessage.Type_ in E | unfold ServerMessage.Type_ in E
    | unfold IDChangeMessage.Type_ in E | unfold OfferFilesMessage.Type_ in E
    | unfold GetServerListMessage.Type_ in E | unfold ServerListMessage.Type_ in E
    | unfold ServerStatusMessage.Type_ in E | unfold ServerIdentMessage.Type_ in E ];
    [ unfold LoginMessage.Type_ | unfold ServerMessage.Type_
    | unfold IDChangeMessage.Type_ | unfold OfferFilesMessage.Type_
    | unfold GetServerListMessage.Type_ | unfold ServerListMessage.Type_
    | unfold ServerStatusMessage.Type_ | unfold ServerIdentMessage.Type_ ];
    rewrite E; cbn [negb]; cbv beta iota;
    repeat match goal with
           | |- context [match ?x with _ => _ end] => destruct x eqn:?
           end;
    cbn [outcome_map]; intros [= <- <-] || discriminate; reflexivity.
Qed.

End Validation.

(** ** Truncated buffers, swapped discriminants, failing decodes *)

Section Framing.
Context {MT : MessageTypes} {TC : TagCodec} {FC : FileCodec}.

(** C5. For every variant, [Decode] of a buffer shorter than the variant's
    minimum length returns [ErrShortBuffer]: it returns (it does not panic,
    no slice or index expression leaves the buffer) and the receiver is
    as it was. *)
Theorem Decode_truncated_short_buffer (m : Message) (data : list byte) :
  len data < min_length m ->
  Decode m data = Returned m (Some ErrShortBuffer).
Proof.
  intros H; apply Decode_precheck_fail; unfold precheck.
  destruct (Header.Decode data) as [err|header] eqn:HD.
  - apply Header_Decode_inl in HD as [-> _]; reflexivity.
  - apply Z.ltb_lt in H; rewrite H, orb_true_r; reflexivity.
Qed.

(** C6. For every variant, [Decode] of a buffer that passes the decoder's
    length checks and whose byte at offset 5 is the discriminant of another
    variant returns [ErrWrongMessageType]. *)
Theorem Decode_swapped_discriminant
        (m : Message) (data : list byte) (header : Header.t) (b : byte) :
  Header.Decode data = inr header ->
  HeaderLength + checked_size m header <= len data ->
  min_length m <= len data ->
  index data 5 = Some b ->
  In b discriminants ->
  b <> Type_ m ->
  Decode m data = Returned m (Some ErrWrongMessageType).
Proof.
  intros HD H1 H2 I _ Hb; apply Decode_precheck_fail; unfold precheck.
  rewrite HD.
  apply Z.ltb_ge in H1 as H1'; apply Z.ltb_ge in H2 as H2'; rewrite H1', H2'; cbn [orb].
  pose proof (min_length_ge_6 m).
  rewrite (@index_in_range data 5) in I by lia; injection I as I.
  change (nth 5%nat data Byte.x00 = b) in I; rewrite I.
  destruct (Byte.eqb b (Type_ m)) eqn:T; [|reflexivity].
  apply Byte.byte_dec_bl in T; contradiction.
Qed.

End Framing.

Lemma Decode_truncated_short_buffer_witness :
  @Decode ed2k_types byte_tags byte_files
          (IDChange IDChangeMessage.zero) (map B [227; 9; 0; 0; 0; 64; 1; 2])
  = Returned (IDChange IDChangeMessage.zero) (Some ErrShortBuffer).
Proof.
  apply Decode_truncated_short_buffer. vm_compute. reflexivity.
Defined.

Lemma Decode_swapped_discriminant_witness :
  @Decode ed2k_types byte_tags byte_files
          (IDChange IDChangeMessage.zero)
          (map B [227; 9; 0; 0; 0; 52; 1; 0; 0; 0; 2; 0; 0; 0])
  = Returned (IDChange IDChangeMessage.zero) (Some ErrWrongMessageType).
Proof.
  apply (@Decode_swapped_discriminant ed2k_types byte_tags byte_files
           _ _ (Header.mk (B 227) 9) (B 52)).
  - vm_compute; reflexivity.
  - vm_compute; discriminate.
  - vm_compute; discriminate.
  - vm_compute; reflexivity.
  - vm_compute; auto 10.
  - vm_compute; discriminate.
Defined.

(** C2, as stated, fails. [ServerMessage.Decode] stores the header and then
    fails its second length check; [LoginMessage.Decode] stores the header,
    the UID, the client ID and the port and then fails to read a tag. *)
Lemma Decode_not_all_or_nothing :
  (@ServerMessage.Decode ed2k_types ServerMessage.zero
     (map B [227; 5; 0; 0; 0; 56; 10; 0; 97; 98])
   = Returned (ServerMessage.mk (Header.mk (B 227) 5) []) (Some ErrShortBuffer)
   /\ ServerMessage.mk (Header.mk (B 227) 5) [] <> ServerMessage.zero)
  /\
  (@LoginMessage.Decode ed2k_types byte_tags LoginMessage.zero
     (map B ([227; 27; 0; 0; 0; 1] ++ repeat 7 16 ++ [4; 3; 2; 1; 54; 18; 1; 0; 0; 0]))
   = Returned (LoginMessage.mk (Header.mk (B 227) 27) (map B (repeat 7 16))
                               16909060 4662 [])
              (Some ErrShortBuffer)
   /\ LoginMessage.mk (Header.mk (B 227) 27) (map B (repeat 7 16)) 16909060 4662 []
      <> @LoginMessage.zero byte_tags).
Proof.
  split; split; try (vm_compute; reflexivity); vm_compute; discriminate.
Qed.

(** ** ServerIdentMessage: the length check and the receiver's header *)

(** C3. The buffer below is 34 bytes long and its own header declares a
    payload of 1000 bytes, so it is shorter than 5 plus the declared payload
    length.  [ServerIdentMessage.Decode] into a zero-valued receiver compares
    the length with the receiver's [Header.Size], which is 0, and decodes the
    message without an error.  [LoginMessage.Decode], whose check reads the
    decoded header, returns [ErrShortBuffer] on the same layout. *)
Theorem ServerIdentMessage_Decode_reads_receiver_size :
  let body := repeat 7 16 ++ [4; 3; 2; 1; 54; 18; 0; 0; 0; 0; 0; 0] in
  let data := map B ([227; 232; 3; 0; 0; 65] ++ body) in
  Header.Decode data = inr (Header.mk (B 227) 1000)
  /\ len data = 34
  /\ @ServerIdentMessage.Decode ed2k_types byte_tags ServerIdentMessage.zero data
     = Returned (ServerIdentMessage.mk (Header.mk (B 227) 1000) (map B (repeat 7 16))
                                       16909060 4662 [])
                None
  /\ @LoginMessage.Decode ed2k_types byte_tags LoginMessage.zero
       (map B ([227; 232; 3; 0; 0; 1] ++ body))
     = Returned LoginMessage.zero (Some ErrShortBuffer).
Proof.
  repeat split; vm_compute; reflexivity.
Qed.

(** ** Encoded messages are frames *)

Lemma PutUint32_at_header (h : Header.t) (ty : byte) (body : list byte) :
  PutUint32_at (Header.WriteTo h ++ ty :: body) 1 5
               (len (Header.WriteTo h ++ ty :: body) - HeaderLength)
  = frame (Header.Protocol h) ty body.
Proof.
  unfold frame, HeaderLength, Header.Length.
  rewrite len_app, len_cons.
  replace (len (Header.WriteTo h)) with 5
    by (unfold Header.WriteTo; rewrite len_cons, len_PutUint32; reflexivity).
  replace (5 + (1 + len body) - 5) with (1 + len body) by lia.
  unfold PutUint32_at, Header.WriteTo, PutUint32 at 1.
  cbn [le_split app firstn skipn Z.to_nat Pos.to_nat Pos.iter_op Nat.add].
  reflexivity.
Qed.

Lemma len_frame p ty body : len (frame p ty body) = 6 + len body.
Proof.
  unfold frame. rewrite len_cons, len_app, len_PutUint32, len_cons; lia.
Qed.

Lemma Header_Decode_frame p ty body :
  Header.Decode (frame p ty body) = inr (Header.mk p ((1 + len body) mod 2 ^ 32)).
Proof.
  unfold Header.Decode.
  rewrite len_frame.
  destruct (6 + len body <? Header.Length) eqn:E.
  - apply Z.ltb_lt in E; pose proof (len_nonneg body); unfold Header.Length in E; lia.
  - unfold frame. do 2 f_equal.
    rewrite <- Uint32_PutUint32.
    unfold PutUint32; cbn [le_split app firstn]; reflexivity.
Qed.

Lemma index_frame_5 p ty body : index (frame p ty body) 5 = Some ty.
Proof.
  unfold frame, PutUint32; cbn [le_split app]; reflexivity.
Qed.

(** A slice of the body of a frame. *)
Lemma slice_frame p ty pre x post lo hi :
  lo = 6 + len pre -> hi = 6 + len pre + len x ->
  slice (frame p ty (pre ++ x ++ post)) lo hi = Some x.
Proof.
  intros -> ->. unfold frame.
  replace (p :: PutUint32 (1 + len (pre ++ x ++ post)) ++ ty :: pre ++ x ++ post)
    with ((p :: PutUint32 (1 + len (pre ++ x ++ post)) ++ [ty]) ++ pre ++ x ++ post)
    by (cbn [app]; rewrite <- app_assoc; reflexivity).
  rewrite app_assoc.
  apply slice_app;
    rewrite len_app, len_cons, len_app, len_PutUint32, len_cons, len_nil; lia.
Qed.

Lemma slice_from_frame p ty pre post lo :
  lo = 6 + len pre ->
  slice_from (frame p ty (pre ++ post)) lo = Some post.
Proof.
  intros ->. unfold slice_from.
  replace (pre ++ post) with (pre ++ post ++ []) by (rewrite app_nil_r; reflexivity).
  apply slice_frame; [reflexivity|].
  rewrite len_frame, !len_app, len_nil; lia.
Qed.

Lemma frame_length_checks p ty body k :
  k <= 6 + len body ->
  (len (frame p ty body) <? HeaderLength + (1 + len body) mod 2 ^ 32)
  || (len (frame p ty body) <? k) = false.
Proof.
  intros H. rewrite len_frame.
  apply orb_false_iff; split; apply Z.ltb_ge; [|lia].
  pose proof (len_nonneg body).
  pose proof (Z.mod_le (1 + len body) (2 ^ 32)).
  unfold HeaderLength, Header.Length; lia.
Qed.

Lemma byte_eqb_refl (b : byte) : Byte.eqb b b = true.
Proof. apply Byte.byte_dec_lb; reflexivity. Qed.

Lemma slice_frame_eq p ty body pre x post lo hi :
  body = pre ++ x ++ post ->
  lo = 6 + len pre -> hi = 6 + len pre + len x ->
  slice (frame p ty body) lo hi = Some x.
Proof. intros ->; apply slice_frame. Qed.

Lemma slice_from_frame_eq p ty body pre post lo :
  body = pre ++ post ->
  lo = 6 + len pre ->
  slice_from (frame p ty body) lo = Some post.
Proof. intros ->; apply slice_from_frame. Qed.

Create Rewrite HintDb len.
#[local] Hint Rewrite @len_app @len_cons @len_nil len_PutUint32 len_PutUint16 : len.

Ltac len_arith :=
  unfold HeaderLength, Header.Length in *; autorewrite with len in *;
  unfold len in *; lia.

Ltac list_eq := rewrite ?app_nil_r, <- ?app_assoc; reflexivity.

(** [frame_slice pre x post] rewrites the first slice of a frame in the goal,
    which is to be [x], lying between [pre] and [post] in the body. *)
Ltac frame_slice pre x post :=
  match goal with
  | |- context [slice (frame ?p ?t ?body) ?lo ?hi] =>
    let H := fresh "S" in
    assert (H : slice (frame p t body) lo hi = Some x)
      by (apply (@slice_frame_eq p t body pre x post); [list_eq | len_arith | len_arith]);
    rewrite H; clear H
  end.

Ltac frame_slice_from pre post :=
  match goal with
  | |- context [slice_from (frame ?p ?t ?body) ?lo] =>
    let H := fresh "S" in
    assert (H : slice_from (frame p t body) lo = Some post)
      by (apply (@slice_from_frame_eq p t body pre post); [list_eq | len_arith]);
    rewrite H; clear H
  end.

(** The opening validation of a [Decode] applied to a frame of its own
    variant: the header, the length checks and the discriminant. *)
Ltac frame_validation :=
  rewrite Header_Decode_frame; cbv beta iota zeta; cbn [Header.Size];
  rewrite frame_length_checks by len_arith;
  rewrite index_frame_5, byte_eqb_refl; cbn [negb]; cbv beta iota.

Section IDChange.
Context {MT : MessageTypes}.
Import IDChangeMessage.

Lemma IDChangeMessage_Encode_frame (m : t) :
  Encode (Some m)
  = (frame (Header.Protocol (Header m)) MessageIDChange
           (PutUint32 (ClientID m) ++ PutUint32 (Bitmap m)), None).
Proof.
  unfold Encode; cbv zeta.
  rewrite <- !app_assoc; cbn [app].
  rewrite PutUint32_at_header; reflexivity.
Qed.

Lemma IDChangeMessage_Decode_frame (r : t) (p : byte) (c b : Z) :
  Decode r (frame p MessageIDChange (PutUint32 c ++ PutUint32 b))
  = Returned (mk (Header.mk p 9) (c mod 2 ^ 32) (b mod 2 ^ 32)) None.
Proof.
  unfold Decode. frame_validation.
  frame_slice (@nil byte) (PutUint32 c) (PutUint32 b).
  frame_slice (PutUint32 c) (PutUint32 b) (@nil byte).
  cbn [Header ClientID Bitmap].
  rewrite !Uint32_PutUint32.
  autorewrite with len. reflexivity.
Qed.

End IDChange.

(** ** Lists of tags and files *)

Section ListLemmas.
Context {A : Type}.
Variable write : A -> error + list byte.
Variable read : list byte -> error + (A * list byte).

Lemma write_all_app (xs : list A) (buf : list byte) :
  write_all write xs buf
  = match write_all write xs [] with
    | inl e => inl e
    | inr bs => inr (buf ++ bs)
    end.
Proof.
  revert buf; induction xs as [|x xs IH]; intros buf; cbn [write_all].
  - rewrite app_nil_r; reflexivity.
  - destruct (write x) as [e|bs]; [reflexivity|].
    rewrite (IH (buf ++ bs)), (IH ([] ++ bs)).
    destruct (write_all write xs []) as [e|bs']; [reflexivity|].
    cbn [app]; rewrite app_assoc; reflexivity.
Qed.

Hypothesis roundtrip : codec_roundtrip write read.

Lemma read_all_write_all (xs : list A) :
  forall (bs rest : list byte) (acc : list A),
    write_all write xs [] = inr bs ->
    read_all read (length xs) (bs ++ rest) acc = (acc ++ xs, None).
Proof.
  induction xs as [|x xs IH]; intros bs rest acc; cbn [write_all read_all length].
  - intros _; rewrite app_nil_r; reflexivity.
  - destruct (write x) as [e|b0] eqn:W; [discriminate|].
    rewrite write_all_app.
    destruct (write_all write xs []) as [e|bs'] eqn:WA; [discriminate|].
    intros [= <-]. cbn [app]. rewrite <- app_assoc.
    rewrite (roundtrip (bs' ++ rest) W).
    rewrite (IH bs' rest (acc ++ [x]) eq_refl).
    rewrite <- app_assoc; reflexivity.
Qed.
End ListLemmas.

Lemma copy_prefix (dst x more : list byte) :
  length dst = length x -> copy dst (x ++ more) = (x, len x).
Proof.
  intros H; unfold copy, len.
  rewrite length_app, H.
  replace (Nat.min (length x) (length x + length more)) with (length x) by lia.
  rewrite firstn_app, firstn_all, Nat.sub_diag, <- H, skipn_all; cbn [firstn].
  rewrite !app_nil_r; reflexivity.
Qed.

Lemma copy_full (dst x : list byte) :
  length dst = length x -> copy dst x = (x, len x).
Proof.
  intros H. rewrite <- (app_nil_r x) at 1. apply copy_prefix, H.
Qed.

(** ** Each variant: what Encode returns, and Decode on it *)

Section ServerMessageFrames.
Context {MT : MessageTypes}.
Import ServerMessage.

Lemma ServerMessage_Encode_frame (m : t) :
  Encode (Some m)
  = (frame (Header.Protocol (Header m)) MessageServerMessage
           (PutUint16 (len (Messages m)) ++ Messages m), None).
Proof.
  unfold Encode; cbv zeta.
  rewrite <- !app_assoc; cbn [app].
  rewrite PutUint32_at_header; reflexivity.
Qed.

Lemma ServerMessage_Decode_frame (r : t) (p : byte) (msg : list byte) :
  Decode r (frame p MessageServerMessage (PutUint16 (len msg) ++ msg))
  = Returned (mk (Header.mk p ((3 + len msg) mod 2 ^ 32))
                 (firstn (Z.to_nat (len msg mod 2 ^ 16)) msg)) None.
Proof.
  unfold Decode. frame_validation.
  frame_slice (@nil byte) (PutUint16 (len msg)) msg.
  rewrite Uint16_PutUint16.
  pose proof (Z.mod_pos_bound (len msg) (2 ^ 16) eq_refl) as Hs.
  pose proof (Z.mod_le (len msg) (2 ^ 16) (len_nonneg msg) eq_refl) as Hle.
  set (size := len msg mod 2 ^ 16) in *.
  assert (L : (len (frame p MessageServerMessage (PutUint16 (len msg) ++ msg))
               <? HeaderLength + 1 + 2 + size) = false)
    by (apply Z.ltb_ge; rewrite len_frame; len_arith).
  rewrite L.
  assert (S2 : slice (frame p MessageServerMessage (PutUint16 (len msg) ++ msg))
                     (HeaderLength + 1 + 2) (HeaderLength + 1 + 2 + size)
               = Some (firstn (Z.to_nat size) msg)).
  { apply (@slice_frame_eq _ _ _ (PutUint16 (len msg)) (firstn (Z.to_nat size) msg)
                           (skipn (Z.to_nat size) msg)).
    - rewrite firstn_skipn; reflexivity.
    - len_arith.
    - unfold HeaderLength, Header.Length; rewrite len_PutUint16.
      unfold len in *; rewrite length_firstn; lia. }
  rewrite S2. cbn [Header].
  autorewrite with len. replace (1 + (2 + len msg)) with (3 + len msg) by lia.
  reflexivity.
Qed.

End ServerMessageFrames.

Section StatusFrames.
Context {MT : MessageTypes}.

Lemma GetServerListMessage_Encode_frame (m : GetServerListMessage.t) :
  GetServerListMessage.Encode (Some m)
  = (frame (Header.Protocol (GetServerListMessage.Header m)) MessageGetServerList [],
     None).
Proof.
  unfold GetServerListMessage.Encode; cbv zeta.
  rewrite PutUint32_at_header; reflexivity.
Qed.

Lemma GetServerListMessage_Decode_frame (r : GetServerListMessage.t) (p : byte) :
  GetServerListMessage.Decode r (frame p MessageGetServerList [])
  = Returned (GetServerListMessage.mk (Header.mk p 1)) None.
Proof.
  unfold GetServerListMessage.Decode. frame_validation. reflexivity.
Qed.

Lemma ServerStatusMessage_Encode_frame (m : ServerStatusMessage.t) :
  ServerStatusMessage.Encode (Some m)
  = (frame (Header.Protocol (ServerStatusMessage.Header m)) MessageServerStatus
           (PutUint32 (ServerStatusMessage.UserCount m)
            ++ PutUint32 (ServerStatusMessage.FileCount m)), None).
Proof.
  unfold ServerStatusMessage.Encode; cbv zeta.
  rewrite <- !app_assoc; cbn [app].
  rewrite PutUint32_at_header; reflexivity.
Qed.

Lemma ServerStatusMessage_Decode_frame (r : ServerStatusMessage.t) (p : byte) (u f : Z) :
  ServerStatusMessage.Decode r (frame p MessageServerStatus (PutUint32 u ++ PutUint32 f))
  = Returned (ServerStatusMessage.mk (Header.mk p 9) (u mod 2 ^ 32) (f mod 2 ^ 32)) None.
Proof.
  unfold ServerStatusMessage.Decode. frame_validation.
  frame_slice (@nil byte) (PutUint32 u) (PutUint32 f).
  frame_slice (PutUint32 u) (PutUint32 f) (@nil byte).
  cbn [ServerStatusMessage.Header ServerStatusMessage.UserCount
       ServerStatusMessage.FileCount].
  rewrite !Uint32_PutUint32.
  autorewrite with len. reflexivity.
Qed.

End StatusFrames.

Lemma Uint32_PutUint32_len {A : Type} (xs : list A) :
  len xs < 2 ^ 32 -> Z.to_nat (Uint32 (PutUint32 (len xs))) = length xs.
Proof.
  intros H. rewrite Uint32_PutUint32, Z.mod_small by (pose proof (len_nonneg xs); lia).
  unfold len; lia.
Qed.

Section OfferFilesFrames.
Context {MT : MessageTypes} {FC : FileCodec}.
Import OfferFilesMessage.

Lemma OfferFilesMessage_Encode_frame (m : t) :
  Encode (Some m)
  = match write_all File_WriteTo (Files m) [] with
    | inl err => ([], Some err)
    | inr fb => (frame (Header.Protocol (Header m)) MessageOfferFiles
                       (PutUint32 (len (Files m)) ++ fb), None)
    end.
Proof.
  unfold Encode; cbv zeta.
  rewrite write_all_app.
  destruct (write_all File_WriteTo (Files m) []) as [err|fb]; [reflexivity|].
  rewrite <- !app_assoc; cbn [app].
  rewrite PutUint32_at_header; reflexivity.
Qed.

Lemma OfferFilesMessage_Decode_frame (p : byte) (files : list File) (fb : list byte) :
  codec_roundtrip File_WriteTo ReadFile ->
  len files < 2 ^ 32 ->
  write_all File_WriteTo files [] = inr fb ->
  Decode zero (frame p MessageOfferFiles (PutUint32 (len files) ++ fb))
  = Returned (mk (Header.mk p ((5 + len fb) mod 2 ^ 32)) files) None.
Proof.
  intros RT Hn W.
  unfold Decode. frame_validation.
  frame_slice (@nil byte) (PutUint32 (len files)) fb.
  frame_slice_from (PutUint32 (len files)) fb.
  rewrite (Uint32_PutUint32_len files Hn).
  cbn [Files Header zero].
  pose proof (read_all_write_all RT files [] [] W) as R.
  rewrite app_nil_r in R; rewrite R.
  cbn [app]. autorewrite with len.
  replace (1 + (4 + len fb)) with (5 + len fb) by lia.
  reflexivity.
Qed.

End OfferFilesFrames.

Section TagFrames.
Context {MT : MessageTypes} {TC : TagCodec}.

Lemma LoginMessage_Encode_frame (m : LoginMessage.t) :
  LoginMessage.Encode (Some m)
  = match write_all Tag_WriteTo (LoginMessage.Tags m) [] with
    | inl err => ([], Some err)
    | inr tb => (frame (Header.Protocol (LoginMessage.Header m)) MessageLoginRequest
                       (LoginMessage.UID m ++ PutUint32 (LoginMessage.ClientID m)
                        ++ PutUint16 (LoginMessage.Port m)
                        ++ PutUint32 (len (LoginMessage.Tags m)) ++ tb), None)
    end.
Proof.
  unfold LoginMessage.Encode; cbv zeta.
  rewrite write_all_app.
  destruct (write_all Tag_WriteTo (LoginMessage.Tags m) []) as [err|tb]; [reflexivity|].
  rewrite <- !app_assoc; cbn [app].
  rewrite PutUint32_at_header; reflexivity.
Qed.

Lemma LoginMessage_Decode_frame
      (p : byte) (uid : list byte) (c port : Z) (tags : list Tag) (tb : list byte) :
  codec_roundtrip Tag_WriteTo ReadTag ->
  length uid = 16%nat ->
  len tags < 2 ^ 32 ->
  write_all Tag_WriteTo tags [] = inr tb ->
  LoginMessage.Decode LoginMessage.zero
    (frame p MessageLoginRequest
           (uid ++ PutUint32 c ++ PutUint16 port ++ PutUint32 (len tags) ++ tb))
  = Returned (LoginMessage.mk (Header.mk p ((27 + len tb) mod 2 ^ 32))
                              uid (c mod 2 ^ 32) (port mod 2 ^ 16) tags) None.
Proof.
  intros RT Hu Hn W.
  unfold LoginMessage.Decode. frame_validation.
  frame_slice (@nil byte) uid (PutUint32 c ++ PutUint16 port ++ PutUint32 (len tags) ++ tb).
  frame_slice uid (PutUint32 c) (PutUint16 port ++ PutUint32 (len tags) ++ tb).
  frame_slice (uid ++ PutUint32 c) (PutUint16 port) (PutUint32 (len tags) ++ tb).
  frame_slice (uid ++ PutUint32 c ++ PutUint16 port) (PutUint32 (len tags)) tb.
  frame_slice_from (uid ++ PutUint32 c ++ PutUint16 port ++ PutUint32 (len tags)) tb.
  cbn [LoginMessage.Header LoginMessage.UID LoginMessage.ClientID LoginMessage.Port
       LoginMessage.Tags LoginMessage.zero].
  rewrite (Uint32_PutUint32_len tags Hn).
  pose proof (read_all_write_all RT tags [] [] W) as R.
  rewrite app_nil_r in R; rewrite R.
  rewrite copy_full by (rewrite repeat_length; symmetry; exact Hu).
  cbn [app fst]. rewrite Uint32_PutUint32, Uint16_PutUint16.
  autorewrite with len.
  replace (1 + (len uid + (4 + (2 + (4 + len tb))))) with (27 + len tb)
    by (unfold len; lia).
  reflexivity.
Qed.

Lemma ServerIdentMessage_Encode_frame (m : ServerIdentMessage.t) :
  ServerIdentMessage.Encode (Some m)
  = match write_all Tag_WriteTo (ServerIdentMessage.Tags m) [] with
    | inl err => ([], Some err)
    | inr tb => (frame (Header.Protocol (ServerIdentMessage.Header m)) MessageServerIdent
                       (ServerIdentMessage.Hash m ++ PutUint32 (ServerIdentMessage.IP m)
                        ++ PutUint16 (ServerIdentMessage.Port m)
                        ++ PutUint32 (len (ServerIdentMessage.Tags m)) ++ tb), None)
    end.
Proof.
  unfold ServerIdentMessage.Encode; cbv zeta.
  rewrite write_all_app.
  destruct (write_all Tag_WriteTo (ServerIdentMessage.Tags m) []) as [err|tb];
    [reflexivity|].
  rewrite <- !app_assoc; cbn [app].
  rewrite PutUint32_at_header; reflexivity.
Qed.

(** The static length check of [ServerIdentMessage.Decode] asks for 29 bytes
    after the header where the fixed part of the body takes 27: the lemma
    needs two bytes of tags. *)
Lemma ServerIdentMessage_Decode_frame
      (p : byte) (hash : list byte) (ip port : Z) (tags : list Tag) (tb : list byte) :
  codec_roundtrip Tag_WriteTo ReadTag ->
  length hash = 16%nat ->
  len tags < 2 ^ 32 ->
  2 <= len tb ->
  write_all Tag_WriteTo tags [] = inr tb ->
  ServerIdentMessage.Decode ServerIdentMessage.zero
    (frame p MessageServerIdent
           (hash ++ PutUint32 ip ++ PutUint16 port ++ PutUint32 (len tags) ++ tb))
  = Returned (ServerIdentMessage.mk (Header.mk p ((27 + len tb) mod 2 ^ 32))
                                    hash (ip mod 2 ^ 32) (port mod 2 ^ 16) tags) None.
Proof.
  intros RT Hh Hn H2 W.
  unfold ServerIdentMessage.Decode.
  rewrite Header_Decode_frame; cbv beta iota zeta.
  cbn [ServerIdentMessage.Header ServerIdentMessage.zero Header.Size Header.zero].
  assert (G : (len (frame p MessageServerIdent
                          (hash ++ PutUint32 ip ++ PutUint16 port
                           ++ PutUint32 (len tags) ++ tb)) <? HeaderLength + 0)
              || (len (frame p MessageServerIdent
                             (hash ++ PutUint32 ip ++ PutUint16 port
                              ++ PutUint32 (len tags) ++ tb)) <? HeaderLength + 29)
              = false).
  { rewrite len_frame. apply orb_false_iff; split; apply Z.ltb_ge; len_arith. }
  rewrite G, index_frame_5, byte_eqb_refl; cbn [negb]; cbv beta iota.
  frame_slice_from (@nil byte)
    (hash ++ PutUint32 ip ++ PutUint16 port ++ PutUint32 (len tags) ++ tb).
  cbn [ServerIdentMessage.Hash].
  rewrite copy_prefix by (rewrite Hh; reflexivity).
  cbv beta iota.
  cbn [ServerIdentMessage.Header ServerIdentMessage.Hash ServerIdentMessage.IP
       ServerIdentMessage.Port ServerIdentMessage.Tags].
  frame_slice hash (PutUint32 ip) (PutUint16 port ++ PutUint32 (len tags) ++ tb).
  frame_slice (hash ++ PutUint32 ip) (PutUint16 port) (PutUint32 (len tags) ++ tb).
  frame_slice (hash ++ PutUint32 ip ++ PutUint16 port) (PutUint32 (len tags)) tb.
  frame_slice_from (hash ++ PutUint32 ip ++ PutUint16 port ++ PutUint32 (len tags)) tb.
  rewrite (Uint32_PutUint32_len tags Hn).
  pose proof (read_all_write_all RT tags [] [] W) as R.
  cbn [ServerIdentMessage.Tags ServerIdentMessage.zero].
  rewrite app_nil_r in R; rewrite R.
  cbn [app]. rewrite Uint32_PutUint32, Uint16_PutUint16.
  autorewrite with len.
  replace (1 + (len hash + (4 + (2 + (4 + len tb))))) with (27 + len tb)
    by (unfold len; lia).
  reflexivity.
Qed.

End TagFrames.

Lemma slice_app_eq data pre x post lo hi :
  data = pre ++ x ++ post -> lo = len pre -> hi = len pre + len x ->
  slice data lo hi = Some x.
Proof. intros ->; apply slice_app. Qed.

Section ServerListFrames.
Context {MT : MessageTypes}.
Import ServerListMessage.

Lemma write_addr_app (buf : list byte) (addr : option net.TCPAddr) :
  write_addr buf addr = buf ++ addr_bytes addr.
Proof.
  unfold addr_bytes, write_addr; cbn [app]; rewrite app_assoc; reflexivity.
Qed.

Lemma fold_write_addr (servers : list (option net.TCPAddr)) (buf : list byte) :
  fold_left write_addr servers buf = buf ++ concat (map addr_bytes servers).
Proof.
  revert buf; induction servers as [|a servers IH]; intros buf; cbn [fold_left map concat].
  - rewrite app_nil_r; reflexivity.
  - rewrite IH, write_addr_app, app_assoc; reflexivity.
Qed.

Lemma ServerListMessage_Encode_frame (m : t) :
  Encode (Some m)
  = (frame (Header.Protocol (Header m)) MessageServerList
           (byte.of_Z (len (Servers m)) :: concat (map addr_bytes (Servers m))), None).
Proof.
  unfold Encode; cbv zeta.
  rewrite fold_write_addr.
  rewrite <- !app_assoc; cbn [app].
  rewrite PutUint32_at_header; reflexivity.
Qed.

Lemma addr_bytes_nil_slot : addr_bytes None = repeat Byte.x00 6.
Proof. reflexivity. Qed.

Lemma To4_length (ip : net.IP) : net.To4 ip <> [] -> length (net.To4 ip) = 4%nat.
Proof.
  unfold net.To4.
  destruct (length ip =? 4)%nat eqn:E4.
  - intros _; now apply Nat.eqb_eq.
  - destruct ((length ip =? 16)%nat && net.bytes_eqb (firstn 12 ip) net.v4InV6Prefix) eqn:E16.
    + intros _. apply andb_true_iff in E16 as [E16 _]; apply Nat.eqb_eq in E16.
      rewrite length_skipn, E16; reflexivity.
    + intros H; contradiction H; reflexivity.
Qed.

Lemma addr_bytes_wire (a : net.TCPAddr) :
  wire_addr (Some a) ->
  addr_bytes (Some a) = net.TCPAddr_IP a ++ PutUint16 (net.Port a).
Proof.
  intros (H4 & _ & _). unfold addr_bytes, write_addr, net.To4.
  apply Nat.eqb_eq in H4; rewrite H4; reflexivity.
Qed.

Lemma len_addr_bytes_wire (servers : list (option net.TCPAddr)) :
  Forall wire_addr servers -> len (concat (map addr_bytes servers)) = 6 * len servers.
Proof.
  induction 1 as [|a servers Ha _ IH]; [reflexivity|].
  cbn [map concat]. rewrite len_app, IH, len_cons.
  destruct a as [a|]; [|contradiction].
  rewrite (addr_bytes_wire Ha), len_app, len_PutUint16.
  destruct Ha as (H4 & _); unfold len; lia.
Qed.

Lemma read_addrs_wire (servers : list (option net.TCPAddr)) :
  forall (data pre post : list byte) (pos : Z) (acc : list (option net.TCPAddr)),
    Forall wire_addr servers ->
    data = pre ++ concat (map addr_bytes servers) ++ post ->
    pos = len pre ->
    read_addrs (length servers) data pos acc = Returned (acc ++ servers) None.
Proof.
  induction servers as [|s servers IH]; intros data pre post pos acc Hw Hd Hp;
    cbn [read_addrs length].
  - rewrite app_nil_r; reflexivity.
  - apply Forall_cons_iff in Hw as [Hs Hw'].
    destruct s as [a|]; [|contradiction].
    cbn [map concat] in Hd. rewrite (addr_bytes_wire Hs) in Hd.
    destruct a as [ip port zone]; cbn [net.TCPAddr_IP net.Port] in Hd.
    destruct Hs as (H4 & Hport & Hzone); cbn [net.TCPAddr_IP net.Port net.Zone] in *.
    rewrite (@slice_app_eq data pre ip
               (PutUint16 port ++ concat (map addr_bytes servers) ++ post) pos (pos + 4))
      by (subst; first [list_eq | len_arith]).
    rewrite (@slice_app_eq data (pre ++ ip) (PutUint16 port)
               (concat (map addr_bytes servers) ++ post) (pos + 4) (pos + 6))
      by (subst; first [list_eq | len_arith]).
    rewrite Uint16_PutUint16, Z.mod_small by lia.
    rewrite (IH data (pre ++ ip ++ PutUint16 port) post (pos + 6)
                (acc ++ [Some (net.mkTCPAddr ip port EmptyString)]) Hw').
    + subst zone. rewrite <- app_assoc; reflexivity.
    + subst data; rewrite <- !app_assoc; reflexivity.
    + subst pos; rewrite !len_app, len_PutUint16; unfold len; lia.
Qed.

Lemma index_frame_6 p ty c body : index (frame p ty (c :: body)) 6 = Some c.
Proof. unfold frame, PutUint32; cbn [le_split app]; reflexivity. Qed.

Lemma ServerListMessage_Decode_frame (p : byte) (servers : list (option net.TCPAddr)) :
  len servers < 256 ->
  Forall wire_addr servers ->
  Decode zero (frame p MessageServerList
                     (byte.of_Z (len servers) :: concat (map addr_bytes servers)))
  = Returned (mk (Header.mk p ((2 + 6 * len servers) mod 2 ^ 32)) servers) None.
Proof.
  intros Hn Hw.
  pose proof (len_addr_bytes_wire Hw) as L.
  pose proof (len_nonneg servers) as L0.
  unfold Decode. frame_validation.
  change (HeaderLength + 1) with 6. rewrite index_frame_6.
  rewrite byte.unsigned_of_Z. unfold byte.wrap. rewrite Z.mod_small by lia.
  assert (C : (len (frame p MessageServerList
                          (byte.of_Z (len servers) :: concat (map addr_bytes servers)))
               <? 6 + 1 + len servers * 6) = false)
    by (apply Z.ltb_ge; rewrite len_frame, len_cons, L; lia).
  rewrite C.
  replace (Z.to_nat (len servers)) with (length servers) by (unfold len; lia).
  rewrite (@read_addrs_wire servers _
             (p :: PutUint32 (1 + len (byte.of_Z (len servers)
                                        :: concat (map addr_bytes servers)))
                ++ [MessageServerList; byte.of_Z (len servers)])
             [] (6 + 1) (Servers (mk (Header.mk p
                  ((1 + len (byte.of_Z (len servers)
                             :: concat (map addr_bytes servers))) mod 2 ^ 32))
                  (Servers zero))) Hw).
  - cbn [Servers Header zero app]. rewrite len_cons, L.
    replace (1 + (1 + 6 * len servers)) with (2 + 6 * len servers) by lia.
    reflexivity.
  - unfold frame. rewrite app_nil_r. cbn [app]. rewrite <- app_assoc. reflexivity.
  - rewrite len_cons, len_app, len_PutUint32; reflexivity.
Qed.

End ServerListFrames.

(** ** IDChangeMessage: the client ID and the bitmap *)

(** C8. Encoding an [IDChangeMessage] and decoding the result gives back the
    client ID and the bitmap, whatever bits of the bitmap are set: no bit is
    rejected or cleared.  The header that comes back carries the protocol
    marker of the message and the payload length 9, so a message such as
    [{clientID: 0x01020304, bitmap: 0x1}] whose header holds that length comes
    back identical. *)
Theorem IDChangeMessage_Decode_Encode
        {MT : MessageTypes} (r : IDChangeMessage.t) (h : Header.t) (clientID bitmap : Z) :
  0 <= clientID < 2 ^ 32 ->
  0 <= bitmap < 2 ^ 32 ->
  exists data,
    IDChangeMessage.Encode (Some (IDChangeMessage.mk h clientID bitmap)) = (data, None)
    /\ IDChangeMessage.Decode r data
       = Returned (IDChangeMessage.mk (Header.mk (Header.Protocol h) 9) clientID bitmap)
                  None.
Proof.
  intros Hc Hb. eexists; split.
  - apply IDChangeMessage_Encode_frame.
  - cbn [IDChangeMessage.Header IDChangeMessage.ClientID IDChangeMessage.Bitmap].
    rewrite IDChangeMessage_Decode_frame, !Z.mod_small by lia. reflexivity.
Qed.

Lemma IDChangeMessage_Decode_Encode_witness :
  let m := IDChangeMessage.mk (Header.mk (B 227) 9) 16909060 1 in
  exists data,
    @IDChangeMessage.Encode ed2k_types (Some m) = (data, None)
    /\ @IDChangeMessage.Decode ed2k_types IDChangeMessage.zero data = Returned m None.
Proof.
  apply (@IDChangeMessage_Decode_Encode ed2k_types); lia.
Defined.

(** The same with the reserved bit 1 of the bitmap set, on the bytes. *)
Example IDChangeMessage_reserved_bit :
  @IDChangeMessage.Encode ed2k_types
    (Some (IDChangeMessage.mk (Header.mk (B 227) 9) 16909060 3))
  = (map B [227; 9; 0; 0; 0; 64; 4; 3; 2; 1; 3; 0; 0; 0], None)
  /\ @IDChangeMessage.Decode ed2k_types IDChangeMessage.zero
       (map B [227; 9; 0; 0; 0; 64; 4; 3; 2; 1; 3; 0; 0; 0])
     = Returned (IDChangeMessage.mk (Header.mk (B 227) 9) 16909060 3) None.
Proof. split; vm_compute; reflexivity. Qed.

(** ** OfferFilesMessage without files *)

(** C9. An [OfferFilesMessage] with no files encodes to the 5-byte header
    (with payload length 5), the discriminant and four zero bytes; decoding
    these ten bytes succeeds and gives an empty file list. *)
Theorem OfferFilesMessage_no_files
        {MT : MessageTypes} {FC : FileCodec} (h : Header.t) :
  let data := Header.WriteTo (Header.mk (Header.Protocol h) 5)
              ++ [MessageOfferFiles] ++ repeat Byte.x00 4 in
  len data = 10
  /\ OfferFilesMessage.Encode (Some (OfferFilesMessage.mk h [])) = (data, None)
  /\ OfferFilesMessage.Decode OfferFilesMessage.zero data
     = Returned (OfferFilesMessage.mk (Header.mk (Header.Protocol h) 5) []) None.
Proof.
  cbv zeta.
  assert (F : Header.WriteTo (Header.mk (Header.Protocol h) 5)
              ++ [MessageOfferFiles] ++ repeat Byte.x00 4
              = frame (Header.Protocol h) MessageOfferFiles (PutUint32 (len (@nil File)) ++ []))
    by reflexivity.
  rewrite F; clear F. split; [|split].
  - rewrite len_frame; reflexivity.
  - rewrite OfferFilesMessage_Encode_frame; reflexivity.
  - unfold OfferFilesMessage.Decode. frame_validation.
    frame_slice (@nil byte) (PutUint32 (len (@nil File))) (@nil byte).
    frame_slice_from (PutUint32 (len (@nil File))) (@nil byte).
    reflexivity.
Qed.

(** ** ServerMessage: the 16-bit length of the text *)

(** C10. [ServerMessage.Encode] writes [len(m.Messages) mod 2^16] in the two
    bytes that follow the discriminant; a [Decode] that succeeds has read
    the number of bytes that the two bytes declare; so decoding an encoded
    message succeeds with the first [len(m.Messages) mod 2^16] bytes of the
    text, which is the text exactly when it is shorter than 65536 bytes. *)
Theorem ServerMessage_length_prefix
        {MT : MessageTypes} (r m : ServerMessage.t) :
  (exists data s,
      ServerMessage.Encode (Some m) = (data, None)
      /\ slice data 6 8 = Some s
      /\ Uint16 s = len (ServerMessage.Messages m) mod 2 ^ 16
      /\ exists m',
          ServerMessage.Decode r data = Returned m' None
          /\ ServerMessage.Messages m'
             = firstn (Z.to_nat (len (ServerMessage.Messages m) mod 2 ^ 16))
                      (ServerMessage.Messages m)
          /\ (ServerMessage.Messages m' = ServerMessage.Messages m
              <-> len (ServerMessage.Messages m) < 65536))
  /\ (forall data m',
         ServerMessage.Decode r data = Returned m' None ->
         exists s, slice data 6 8 = Some s
                   /\ slice data 8 (8 + Uint16 s) = Some (ServerMessage.Messages m')).
Proof.
  split.
  - destruct m as [h msg]; cbn [ServerMessage.Messages].
    pose proof (len_nonneg msg) as L0.
    pose proof (Z.mod_pos_bound (len msg) (2 ^ 16) eq_refl) as Hs.
    pose proof (Z.mod_le (len msg) (2 ^ 16) L0 eq_refl) as Hle.
    eexists; exists (PutUint16 (len msg)); split; [|split; [|split]].
    + apply ServerMessage_Encode_frame.
    + cbn [ServerMessage.Messages ServerMessage.Header].
      apply (@slice_frame_eq _ _ _ (@nil byte) (PutUint16 (len msg)) msg);
        [list_eq | len_arith | len_arith].
    + apply Uint16_PutUint16.
    + eexists; split; [|split].
      * cbn [ServerMessage.Messages ServerMessage.Header].
        apply ServerMessage_Decode_frame.
      * reflexivity.
      * cbn [ServerMessage.Messages]. split.
        -- intros E. apply (f_equal (@length byte)) in E.
           rewrite length_firstn in E. unfold len in *.
           change (2 ^ 16) with 65536 in *. lia.
        -- intros H. rewrite Z.mod_small by (change (2 ^ 16) with 65536; lia).
           unfold len. rewrite Nat2Z.id. apply firstn_all.
  - intros data m'. unfold ServerMessage.Decode.
    destruct (Header.Decode data) as [e|header]; [discriminate|].
    cbv zeta.
    destruct ((len data <? HeaderLength + Header.Size header)
              || (len data <? HeaderLength + 3)); [discriminate|].
    destruct (index data 5) as [b|]; [|discriminate].
    destruct (negb (Byte.eqb b MessageServerMessage)); [discriminate|].
    change (HeaderLength + 1) with 6; change (6 + 2) with 8.
    destruct (slice data 6 8) as [s|]; [|discriminate].
    destruct (len data <? 8 + Uint16 s); [discriminate|].
    destruct (slice data 8 (8 + Uint16 s)) as [s'|] eqn:S2; [|discriminate].
    intros [= <-]. exists s; split; [reflexivity | exact S2].
Qed.

Lemma ServerMessage_length_prefix_witness :
  exists s, slice (map B [227; 5; 0; 0; 0; 56; 2; 0; 104; 105]) 6 8 = Some s
            /\ slice (map B [227; 5; 0; 0; 0; 56; 2; 0; 104; 105]) 8 (8 + Uint16 s)
               = Some (map B [104; 105]).
Proof.
  apply (proj2 (@ServerMessage_length_prefix ed2k_types ServerMessage.zero ServerMessage.zero)
               (map B [227; 5; 0; 0; 0; 56; 2; 0; 104; 105])
               (ServerMessage.mk (Header.mk (B 227) 5) (map B [104; 105]))).
  vm_compute; reflexivity.
Defined.

(** A text of 65536 bytes comes back empty. *)
Example ServerMessage_65536 :
  let m := ServerMessage.mk (Header.mk (B 227) 65539) (repeat (B 97) (Z.to_nat 65536)) in
  @ServerMessage.Decode ed2k_types ServerMessage.zero
    (fst (@ServerMessage.Encode ed2k_types (Some m)))
  = Returned (ServerMessage.mk (Header.mk (B 227) 65539) []) None.
Proof. vm_compute; reflexivity. Qed.

(** ** ServerListMessage: three entries, one of them nil *)

Section ServerListEntries.
Context {MT : MessageTypes}.

Lemma addr_bytes_entry (s : option net.TCPAddr) :
  (forall a, s = Some a -> net.To4 (net.TCPAddr_IP a) <> []) ->
  len (addr_bytes s) = 6 /\ (s = None -> addr_bytes s = repeat Byte.x00 6).
Proof.
  intros H; split.
  - destruct s as [a|]; [|reflexivity].
    unfold addr_bytes, ServerListMessage.write_addr; cbn [app].
    rewrite len_app, len_PutUint16. unfold len.
    rewrite (@To4_length _ (H a eq_refl)); reflexivity.
  - intros ->; reflexivity.
Qed.

Lemma addr_bytes_entries (servers : list (option net.TCPAddr)) :
  (forall a, In (Some a) servers -> net.To4 (net.TCPAddr_IP a) <> []) ->
  Forall2 (fun s e => len e = 6 /\ (s = None -> e = repeat Byte.x00 6))
          servers (map addr_bytes servers)
  /\ len (concat (map addr_bytes servers)) = 6 * len servers.
Proof.
  induction servers as [|s servers IH]; intros H; cbn [map concat].
  - split; [constructor | reflexivity].
  - destruct IH as [IH1 IH2]; [intros a Ha; apply H; right; exact Ha|].
    assert (Hs : forall a, s = Some a -> net.To4 (net.TCPAddr_IP a) <> [])
      by (intros a ->; apply H; left; reflexivity).
    pose proof (@addr_bytes_entry s Hs) as [L Z'].
    split.
    + constructor; [split; assumption | exact IH1].
    + rewrite len_app, len_cons, L, IH2; lia.
Qed.

(** C7. A [ServerListMessage] with three entries, one of them nil and the
    others IPv4 addresses, encodes to the header, the discriminant, one
    count byte 3 and 18 bytes: six per entry, all zero for a nil entry. *)
Theorem ServerListMessage_three_entries
        (h : Header.t) (servers : list (option net.TCPAddr)) :
  length servers = 3%nat ->
  In None servers ->
  (forall a, In (Some a) servers -> net.To4 (net.TCPAddr_IP a) <> []) ->
  exists header entries,
    ServerListMessage.Encode (Some (ServerListMessage.mk h servers))
    = (header ++ [MessageServerList] ++ [B 3] ++ concat entries, None)
    /\ len header = 5
    /\ len (concat entries) = 18
    /\ Forall2 (fun s e => len e = 6 /\ (s = None -> e = repeat Byte.x00 6))
               servers entries.
Proof.
  intros H3 _ H4.
  destruct (@addr_bytes_entries servers H4) as [F L].
  exists (Header.Protocol h
          :: PutUint32 (1 + len (byte.of_Z (len servers)
                                 :: concat (map addr_bytes servers)))),
    (map addr_bytes servers).
  split; [|split; [|split]].
  - rewrite ServerListMessage_Encode_frame.
    cbn [ServerListMessage.Header ServerListMessage.Servers].
    unfold frame, B. replace (len servers) with 3 by (unfold len; lia).
    cbn [app]. reflexivity.
  - rewrite len_cons, len_PutUint32; reflexivity.
  - rewrite L; unfold len; lia.
  - exact F.
Qed.

End ServerListEntries.

Lemma ServerListMessage_three_entries_witness :
  let a1 := net.mkTCPAddr (map B [10; 0; 0; 1]) 4661 EmptyString in
  let a2 := net.mkTCPAddr (net.IPv4 (B 192) (B 168) (B 1) (B 2)) 4242 EmptyString in
  exists header entries,
    @ServerListMessage.Encode ed2k_types
      (Some (ServerListMessage.mk (Header.mk (B 227) 0) [Some a1; None; Some a2]))
    = (header ++ [B 50] ++ [B 3] ++ concat entries, None)
    /\ len header = 5
    /\ len (concat entries) = 18
    /\ Forall2 (fun s e => len e = 6 /\ (s = None -> e = repeat Byte.x00 6))
               [Some a1; None; Some a2] entries.
Proof.
  cbv zeta.
  apply (@ServerListMessage_three_entries ed2k_types).
  - reflexivity.
  - right; left; reflexivity.
  - intros a [H | [H | [H | []]]]; try discriminate H;
      injection H as <-; vm_compute; discriminate.
Defined.

(** The bytes of the message of the witness. *)
Example ServerListMessage_three_entries_bytes :
  let a1 := net.mkTCPAddr (map B [10; 0; 0; 1]) 4661 EmptyString in
  let a2 := net.mkTCPAddr (net.IPv4 (B 192) (B 168) (B 1) (B 2)) 4242 EmptyString in
  @ServerListMessage.Encode ed2k_types
    (Some (ServerListMessage.mk (Header.mk (B 227) 0) [Some a1; None; Some a2]))
  = (map B [227; 20; 0; 0; 0; 50; 3;
            10; 0; 0; 1; 53; 18;  0; 0; 0; 0; 0; 0;  192; 168; 1; 2; 146; 16], None).
Proof. vm_compute; reflexivity. Qed.

(** ** The length field of the header *)

Lemma slice_frame_length p ty body :
  slice (frame p ty body) 1 5 = Some (PutUint32 (1 + len body)).
Proof.
  apply (@slice_app_eq _ [p] (PutUint32 (1 + len body)) (ty :: body));
    [reflexivity | reflexivity | rewrite len_PutUint32; reflexivity].
Qed.

Section LengthField.
Context {MT : MessageTypes} {TC : TagCodec} {FC : FileCodec}.

(** What [Encode] returns without an error is a frame. *)
Lemma Encode_frame (m : Message) (data : list byte) :
  Encode m = (data, None) ->
  exists body, data = frame (Header.Protocol (header_of m)) (Type_ m) body.
Proof.
  destruct m; cbn [Encode header_of Type_].
  - rewrite LoginMessage_Encode_frame.
    destruct (write_all Tag_WriteTo (LoginMessage.Tags m) []); [discriminate|].
    intros [= <-]; eexists; reflexivity.
  - rewrite ServerMessage_Encode_frame. intros [= <-]; eexists; reflexivity.
  - rewrite IDChangeMessage_Encode_frame. intros [= <-]; eexists; reflexivity.
  - rewrite OfferFilesMessage_Encode_frame.
    destruct (write_all File_WriteTo (OfferFilesMessage.Files m) []); [discriminate|].
    intros [= <-]; eexists; reflexivity.
  - rewrite GetServerListMessage_Encode_frame. intros [= <-]; eexists; reflexivity.
  - rewrite ServerListMessage_Encode_frame. intros [= <-]; eexists; reflexivity.
  - rewrite ServerStatusMessage_Encode_frame. intros [= <-]; eexists; reflexivity.
  - rewrite ServerIdentMessage_Encode_frame.
    destruct (write_all Tag_WriteTo (ServerIdentMessage.Tags m) []); [discriminate|].
    intros [= <-]; eexists; reflexivity.
Qed.

(** C4, as amended. For every variant, the bytes that [Encode] returns
    hold at offsets 1 to 5 the little-endian encoding of the total length
    minus 5 modulo 2^32: the total length minus 5 itself as long as that
    fits 32 bits. *)
Theorem Encode_length_field (m : Message) (data : list byte) :
  Encode m = (data, None) ->
  exists s,
    slice data 1 5 = Some s
    /\ Uint32 s = (len data - 5) mod 2 ^ 32
    /\ (len data - 5 < 2 ^ 32 -> Uint32 s = len data - 5).
Proof.
  intros E. destruct (Encode_frame m E) as [body ->].
  exists (PutUint32 (1 + len body)).
  assert (U : Uint32 (PutUint32 (1 + len body))
              = (len (frame (Header.Protocol (header_of m)) (Type_ m) body) - 5) mod 2 ^ 32).
  { rewrite Uint32_PutUint32, len_frame. f_equal; lia. }
  split; [apply slice_frame_length | split; [exact U|]].
  intros H. rewrite U. apply Z.mod_small.
  rewrite len_frame in *. pose proof (len_nonneg body). lia.
Qed.

End LengthField.

Lemma Encode_length_field_witness :
  exists s,
    slice (map B [227; 9; 0; 0; 0; 52; 7; 0; 0; 0; 9; 0; 0; 0]) 1 5 = Some s
    /\ Uint32 s = (len (map B [227; 9; 0; 0; 0; 52; 7; 0; 0; 0; 9; 0; 0; 0]) - 5) mod 2 ^ 32
    /\ (len (map B [227; 9; 0; 0; 0; 52; 7; 0; 0; 0; 9; 0; 0; 0]) - 5 < 2 ^ 32 ->
        Uint32 s = len (map B [227; 9; 0; 0; 0; 52; 7; 0; 0; 0; 9; 0; 0; 0]) - 5).
Proof.
  apply (@Encode_length_field ed2k_types byte_tags byte_files
           (ServerStatus (ServerStatusMessage.mk (Header.mk (B 227) 0) 7 9))).
  vm_compute; reflexivity.
Defined.

(** C4, as stated, fails on a message of 2^32 + 5 bytes or more: for a
    [ServerMessage] with a text of 2^32 bytes the stored length is 3 and the
    total length minus 5 is 2^32 + 3. *)
Lemma Encode_length_field_wraps :
  let m := ServerMessage.mk (Header.mk (B 227) 0) (repeat (B 97) (Z.to_nat 4294967296)) in
  exists data s,
    @ServerMessage.Encode ed2k_types (Some m) = (data, None)
    /\ slice data 1 5 = Some s
    /\ Uint32 s = 3
    /\ len data - 5 = 4294967299
    /\ Uint32 s <> len data - 5.
Proof.
  cbv zeta. eexists; eexists.
  split; [apply ServerMessage_Encode_frame|].
  split; [apply slice_frame_length|].
  cbn [ServerMessage.Messages ServerMessage.Header].
  rewrite Uint32_PutUint32, len_frame, len_app, len_PutUint16.
  unfold len. rewrite !repeat_length, !Z2Nat.id by discriminate.
  split; [reflexivity | split; [reflexivity | vm_compute; discriminate]].
Qed.

(** ** Decoding what Encode returned *)

Section DecodeEncode.
Context {MT : MessageTypes} {TC : TagCodec} {FC : FileCodec}.

Ltac size_eq :=
  do 4 f_equal; rewrite ?len_frame; autorewrite with len;
  first [reflexivity | unfold len in *; f_equal; lia].

(** C1, as amended. For a message in the domain of the wire format, with
    tag and file codecs that round-trip, and whose encoding is as long as
    the static minimum of the variant's [Decode], decoding what [Encode]
    returned into a zero-valued receiver succeeds and gives the message
    back, with the encoded payload length in its header. *)
Theorem Decode_Encode (m : Message) (data : list byte) :
  in_domain m ->
  codec_roundtrip Tag_WriteTo ReadTag ->
  codec_roundtrip File_WriteTo ReadFile ->
  Encode m = (data, None) ->
  min_length m <= len data ->
  Decode (zero_of m) data
  = Returned (with_header m (Header.mk (Header.Protocol (header_of m))
                                       ((len data - 5) mod 2 ^ 32))) None.
Proof.
  intros D RT RF E L.
  destruct m as [m|m|m|m|m|m|m|m];
    cbn [Encode Decode zero_of with_header header_of in_domain min_length] in *.
  - destruct m as [h uid c port tags].
    rewrite LoginMessage_Encode_frame in E.
    cbn [LoginMessage.Tags LoginMessage.UID LoginMessage.ClientID LoginMessage.Port
         LoginMessage.Header] in *.
    destruct D as (Hu & Hc & Hp & Hn).
    destruct (write_all Tag_WriteTo tags []) as [e|tb] eqn:W; [discriminate|].
    apply (f_equal fst) in E; cbn [fst] in E; subst data.
    rewrite LoginMessage_Decode_frame by assumption.
    rewrite (Z.mod_small c), (Z.mod_small port) by lia.
    cbn [outcome_map]. size_eq.
  - destruct m as [h msg].
    rewrite ServerMessage_Encode_frame in E.
    cbn [ServerMessage.Messages ServerMessage.Header] in *.
    apply (f_equal fst) in E; cbn [fst] in E; subst data.
    rewrite ServerMessage_Decode_frame.
    rewrite (Z.mod_small (len msg)) by (pose proof (len_nonneg msg); lia).
    replace (Z.to_nat (len msg)) with (length msg) by (unfold len; lia).
    rewrite firstn_all.
    cbn [outcome_map]. size_eq.
  - destruct m as [h c b].
    rewrite IDChangeMessage_Encode_frame in E.
    cbn [IDChangeMessage.ClientID IDChangeMessage.Bitmap IDChangeMessage.Header] in *.
    destruct D as (Hc & Hb).
    apply (f_equal fst) in E; cbn [fst] in E; subst data.
    rewrite IDChangeMessage_Decode_frame, !Z.mod_small by lia.
    cbn [outcome_map]. size_eq.
  - destruct m as [h files].
    rewrite OfferFilesMessage_Encode_frame in E.
    cbn [OfferFilesMessage.Files OfferFilesMessage.Header] in *.
    destruct (write_all File_WriteTo files []) as [e|fb] eqn:W; [discriminate|].
    apply (f_equal fst) in E; cbn [fst] in E; subst data.
    rewrite OfferFilesMessage_Decode_frame by assumption.
    cbn [outcome_map]. size_eq.
  - destruct m as [h].
    rewrite GetServerListMessage_Encode_frame in E.
    cbn [GetServerListMessage.Header] in *.
    apply (f_equal fst) in E; cbn [fst] in E; subst data.
    rewrite GetServerListMessage_Decode_frame. reflexivity.
  - destruct m as [h servers].
    rewrite ServerListMessage_Encode_frame in E.
    cbn [ServerListMessage.Servers ServerListMessage.Header] in *.
    destruct D as (Hn & Hw).
    apply (f_equal fst) in E; cbn [fst] in E; subst data.
    rewrite ServerListMessage_Decode_frame by assumption.
    cbn [outcome_map]. do 4 f_equal.
    rewrite len_frame, len_cons, (len_addr_bytes_wire Hw). f_equal; lia.
  - destruct m as [h u f].
    rewrite ServerStatusMessage_Encode_frame in E.
    cbn [ServerStatusMessage.UserCount ServerStatusMessage.FileCount
         ServerStatusMessage.Header] in *.
    destruct D as (Hu & Hf).
    apply (f_equal fst) in E; cbn [fst] in E; subst data.
    rewrite ServerStatusMessage_Decode_frame, !Z.mod_small by lia.
    cbn [outcome_map]. size_eq.
  - destruct m as [h hash ip port tags].
    rewrite ServerIdentMessage_Encode_frame in E.
    cbn [ServerIdentMessage.Tags ServerIdentMessage.Hash ServerIdentMessage.IP
         ServerIdentMessage.Port ServerIdentMessage.Header] in *.
    destruct D as (Hh & Hi & Hp & Hn).
    destruct (write_all Tag_WriteTo tags []) as [e|tb] eqn:W; [discriminate|].
    apply (f_equal fst) in E; cbn [fst] in E; subst data.
    assert (H2 : 2 <= len tb) by (rewrite len_frame in L; len_arith).
    rewrite ServerIdentMessage_Decode_frame by assumption.
    rewrite (Z.mod_small ip), (Z.mod_small port) by lia.
    cbn [outcome_map]. size_eq.
Qed.

End DecodeEncode.

Lemma byte_tags_roundtrip : codec_roundtrip (@Tag_WriteTo byte_tags) (@ReadTag byte_tags).
Proof.
  intros [k v] bs rest [= <-]; reflexivity.
Qed.

Lemma byte_files_roundtrip : codec_roundtrip (@File_WriteTo byte_files) (@ReadFile byte_files).
Proof.
  intros [a b] bs rest [= <-]; reflexivity.
Qed.

Lemma Decode_Encode_witness :
  let m := @ServerIdentMessage.mk byte_tags (Header.mk (B 227) 30) (map B (repeat 7 (Z.to_nat 16)))
                                 16909060 4661 [(B 1, B 2)] in
  @Decode ed2k_types byte_tags byte_files
          (ServerIdent (@ServerIdentMessage.zero byte_tags))
          (map B ([227; 30; 0; 0; 0; 65] ++ repeat 7 (Z.to_nat 16)
                  ++ [4; 3; 2; 1; 53; 18; 1; 0; 0; 0; 137; 1; 2]))
  = Returned (ServerIdent m) None.
Proof.
  apply (@Decode_Encode ed2k_types byte_tags byte_files
           (ServerIdent (@ServerIdentMessage.mk byte_tags (Header.mk (B 227) 30)
                           (map B (repeat 7 (Z.to_nat 16))) 16909060 4661 [(B 1, B 2)]))).
  - cbn; repeat split; try lia; reflexivity.
  - exact byte_tags_roundtrip.
  - exact byte_files_roundtrip.
  - vm_compute; reflexivity.
  - vm_compute; discriminate.
Defined.

(** C1, as stated, fails. A [ServerListMessage] with a nil entry, which
    [Encode] accepts and writes as the zero address with port 0, decodes to a
    message whose entry is that address, not nil. *)
Lemma Decode_Encode_nil_server :
  let a1 := net.mkTCPAddr (map B [10; 0; 0; 1]) 4661 EmptyString in
  let a2 := net.mkTCPAddr (map B [192; 168; 1; 2]) 4242 EmptyString in
  let zero_addr := net.mkTCPAddr (map B [0; 0; 0; 0]) 0 EmptyString in
  let m := ServerListMessage.mk (Header.mk (B 227) 20) [Some a1; None; Some a2] in
  let m' := ServerListMessage.mk (Header.mk (B 227) 20) [Some a1; Some zero_addr; Some a2] in
  exists data,
    @ServerListMessage.Encode ed2k_types (Some m) = (data, None)
    /\ @ServerListMessage.Decode ed2k_types ServerListMessage.zero data = Returned m' None
    /\ m' <> m.
Proof.
  cbv zeta. eexists. split; [vm_compute; reflexivity|].
  split; [vm_compute; reflexivity | discriminate].
Qed.

(** A [ServerIdentMessage] without tags encodes to 32 bytes, two fewer than
    the 34 that its [Decode] asks for. *)
Example ServerIdentMessage_without_tags :
  let m := @ServerIdentMessage.mk byte_tags (Header.mk (B 227) 27) (map B (repeat 7 (Z.to_nat 16)))
                                 16909060 4661 [] in
  exists data,
    @ServerIdentMessage.Encode ed2k_types byte_tags (Some m) = (data, None)
    /\ len data = 32
    /\ @ServerIdentMessage.Decode ed2k_types byte_tags ServerIdentMessage.zero data
       = Returned ServerIdentMessage.zero (Some ErrShortBuffer).
Proof.
  cbv zeta. eexists. split; [vm_compute; reflexivity|].
  split; vm_compute; reflexivity.
Qed.

(** * Further properties of the codec *)

(** ** What a successful Decode says about the buffer *)

Section Acceptance.
Context {MT : MessageTypes} {TC : TagCodec} {FC : FileCodec}.

(** X1. When a [Decode] returns no error, the buffer has at least the
    variant's minimum length and the length that the dynamic check asked
    for, its byte at offset 5 is the variant's discriminant, and the
    receiver's header is the header of the buffer. *)
Theorem Decode_success_validated (m m' : Message) (data : list byte) :
  Decode m data = Returned m' None ->
  min_length m <= len data
  /\ HeaderLength + checked_size m (header_of m') <= len data
  /\ index data 5 = Some (Type_ m)
  /\ Header.Decode data = inr (header_of m').
Proof.
  intros D.
  destruct (precheck m data) as [e|] eqn:P.
  - rewrite (Decode_precheck_fail m data P) in D; discriminate.
  - pose proof (Decode_precheck_pass m data P D) as HD.
    destruct (precheck_pass m data P) as (header & HD' & G & I).
    rewrite HD in HD'; injection HD' as <-.
    apply orb_false_iff in G as [G1 G2].
    apply Z.ltb_ge in G1, G2.
    repeat split; assumption.
Qed.

(** X2. What [Encode] returns without an error starts with the protocol
    marker of the message's header and holds the value of the variant's
    [Type] method at offset 5. *)
Theorem Encode_marker_and_type (m : Message) (data : list byte) :
  Encode m = (data, None) ->
  index data 0 = Some (Header.Protocol (header_of m))
  /\ index data 5 = Some (Type_ m)
  /\ 6 <= len data.
Proof.
  intros E; destruct (Encode_frame m E) as [body ->].
  split; [reflexivity | split; [apply index_frame_5|]].
  rewrite len_frame; pose proof (len_nonneg body); lia.
Qed.

End Acceptance.

Section AcceptanceRuns.
#[local] Existing Instance ed2k_types.
#[local] Existing Instance byte_tags.
#[local] Existing Instance byte_files.

Lemma Decode_success_validated_witness :
  let data := map B [227; 9; 0; 0; 0; 64; 4; 3; 2; 1; 1; 0; 0; 0] in
  let m := IDChange IDChangeMessage.zero in
  let m' := IDChange (IDChangeMessage.mk (Header.mk (B 227) 9) 16909060 1) in
  min_length m <= len data
  /\ HeaderLength + checked_size m (header_of m') <= len data
  /\ index data 5 = Some (Type_ m)
  /\ Header.Decode data = inr (header_of m').
Proof.
  apply Decode_success_validated.
  vm_compute; reflexivity.
Defined.

Lemma Encode_marker_and_type_witness :
  let m := ServerStatus
             (ServerStatusMessage.mk (Header.mk (B 227) 0) 7 9) in
  let data := map B [227; 9; 0; 0; 0; 52; 7; 0; 0; 0; 9; 0; 0; 0] in
  index data 0 = Some (Header.Protocol (header_of m))
  /\ index data 5 = Some (Type_ m)
  /\ 6 <= len data.
Proof.
  apply Encode_marker_and_type.
  vm_compute; reflexivity.
Defined.

End AcceptanceRuns.

(** ** No slice or index expression leaves the buffer *)

Lemma Uint16_nonneg (b : list byte) : 0 <= Uint16 b.
Proof. unfold Uint16; pose proof (le_combine_bound b); lia. Qed.

Lemma Uint32_nonneg (b : list byte) : 0 <= Uint32 b.
Proof. unfold Uint32; pose proof (le_combine_bound b); lia. Qed.

Lemma length_slice (data : list byte) (lo hi : Z) :
  0 <= lo -> lo <= hi -> hi <= len data ->
  length (firstn (Z.to_nat (hi - lo)) (skipn (Z.to_nat lo) data)) = Z.to_nat (hi - lo).
Proof.
  intros H0 H1 H2. rewrite length_firstn, length_skipn. unfold len in H2. lia.
Qed.

Section NoPanic.
Context {MT : MessageTypes}.

Lemma read_addrs_returns (data : list byte) (count : nat) :
  forall (pos : Z) (acc : list (option net.TCPAddr)),
    0 <= pos ->
    pos + 6 * Z.of_nat count <= len data ->
    exists new,
      ServerListMessage.read_addrs count data pos acc = Returned (acc ++ new) None
      /\ length new = count
      /\ Forall wire_addr new.
Proof.
  induction count as [|count IH]; intros pos acc H0 H1; cbn [ServerListMessage.read_addrs].
  - exists []; rewrite app_nil_r; repeat split; constructor.
  - rewrite !slice_in_range by lia.
    destruct (IH (pos + 6)
                 (acc ++ [Some (net.mkTCPAddr
                                  (firstn (Z.to_nat (pos + 4 - pos)) (skipn (Z.to_nat pos) data))
                                  (Uint16 (firstn (Z.to_nat (pos + 6 - (pos + 4)))
                                                  (skipn (Z.to_nat (pos + 4)) data)))
                                  EmptyString)]))
      as (new & R & L & W); [lia | lia |].
    eexists (_ :: new); split; [|split].
    + rewrite R, <- app_assoc; reflexivity.
    + cbn [length]; rewrite L; reflexivity.
    + constructor; [|exact W].
      cbn [wire_addr net.TCPAddr_IP net.Port net.Zone]. split; [|split].
      * rewrite length_slice by lia. lia.
      * split; [apply Uint16_nonneg|].
        unfold Uint16.
        pose proof (le_combine_bound
                      (firstn (Z.to_nat (pos + 6 - (pos + 4)))
                              (skipn (Z.to_nat (pos + 4)) data))) as Hb.
        rewrite length_slice in Hb by lia.
        replace (Z.to_nat (pos + 6 - (pos + 4))) with 2%nat in * by lia.
        change (2 ^ (8 * Z.of_nat 2)) with (2 ^ 16) in Hb. lia.
      * reflexivity.
Qed.

End NoPanic.

Ltac unfold_Type :=
  unfold LoginMessage.Type_, ServerMessage.Type_, IDChangeMessage.Type_,
    OfferFilesMessage.Type_, GetServerListMessage.Type_, ServerListMessage.Type_,
    ServerStatusMessage.Type_, ServerIdentMessage.Type_ in *.

(** The steps of a [Decode] up to the assignment of the header, on a buffer
    that passes the opening validation. *)
Ltac pass_validation HD G I :=
  unfold_Decode; rewrite HD; cbv beta iota; rewrite G, I; cbv beta iota;
  rewrite byte_eqb_refl; cbn [negb]; cbv beta iota.

Ltac in_range :=
  rewrite slice_in_range by (unfold HeaderLength, Header.Length in *; lia).

Section Safety.
Context {MT : MessageTypes} {TC : TagCodec} {FC : FileCodec}.

(** X3. [Decode] returns on every buffer, whatever its length and contents:
    every slice and index expression stays inside the buffer. *)
Theorem Decode_never_panics (m : Message) (data : list byte) :
  array_fields m ->
  exists m' err, Decode m data = Returned m' err.
Proof.
  intros A.
  destruct (precheck m data) as [e|] eqn:P.
  - exists m, (Some e); apply Decode_precheck_fail, P.
  - destruct (precheck_pass m data P) as (header & HD & G & I).
    apply orb_false_iff in G as G'; destruct G' as [_ G2]; apply Z.ltb_ge in G2.
    destruct m as [m|m|m|m|m|m|m|m];
      cbn [checked_size min_length Type_ array_fields] in *; unfold_Type;
      pass_validation HD G I.
    + unfold slice_from. repeat in_range.
      destruct (read_all ReadTag) as [tags err]. cbn [outcome_map]. eauto.
    + in_range.
      match goal with
      | |- context [len data <? ?x] => destruct (len data <? x) eqn:C
      end; cbn [outcome_map]; [eauto|].
      apply Z.ltb_ge in C.
      match type of C with
      | context [Uint16 ?s] => pose proof (Uint16_nonneg s)
      end.
      in_range. cbn [outcome_map]. eauto.
    + repeat in_range. cbn [outcome_map]. eauto.
    + unfold slice_from. repeat in_range.
      destruct (read_all ReadFile) as [files err]. cbn [outcome_map]. eauto.
    + cbn [outcome_map]. eauto.
    + rewrite index_in_range by (unfold HeaderLength, Header.Length in *; lia).
      match goal with
      | |- context [len data <? ?x] => destruct (len data <? x) eqn:C
      end; cbn [outcome_map]; [eauto|].
      apply Z.ltb_ge in C.
      match type of C with
      | context [byte.unsigned ?c] => pose proof (byte.unsigned_range c) as Hc
      end.
      match goal with
      | |- context [ServerListMessage.read_addrs ?n data ?pos ?acc] =>
        destruct (@read_addrs_returns data n pos acc) as (new & R & _);
          [ unfold HeaderLength, Header.Length; lia
          | unfold HeaderLength, Header.Length in *; lia
          | rewrite R ]
      end.
      cbn [outcome_map]. eauto.
    + repeat in_range. cbn [outcome_map]. eauto.
    + unfold slice_from. in_range.
      unfold copy. cbn [ServerIdentMessage.Hash].
      rewrite A, length_slice by (unfold HeaderLength, Header.Length in *; lia).
      replace (Nat.min 16 (Z.to_nat (len data - (HeaderLength + 1)))) with 16%nat
        by (unfold HeaderLength, Header.Length in *; lia).
      cbv beta iota.
      repeat in_range.
      destruct (read_all ReadTag) as [tags err]. cbn [outcome_map]. eauto.
Qed.

End Safety.

Section SafetyRuns.
#[local] Existing Instance ed2k_types.
#[local] Existing Instance byte_tags.
#[local] Existing Instance byte_files.

Lemma Decode_never_panics_witness :
  exists m' err,
    Decode (ServerIdent ServerIdentMessage.zero)
           (map B ([227; 255; 255; 255; 255; 65] ++ repeat 255 (Z.to_nat 40)))
    = Returned m' err.
Proof.
  apply Decode_never_panics. reflexivity.
Defined.

End SafetyRuns.

(** ** Bytes after the message *)

Lemma Header_Decode_app (data extra : list byte) :
  HeaderLength <= len data -> Header.Decode (data ++ extra) = Header.Decode data.
Proof.
  unfold HeaderLength, Header.Decode; intros H.
  rewrite len_app. pose proof (len_nonneg extra).
  destruct (len data + len extra <? Header.Length) eqn:E1;
    [apply Z.ltb_lt in E1; lia|].
  destruct (len data <? Header.Length) eqn:E2; [apply Z.ltb_lt in E2; lia|].
  destruct data as [|p rest]; [unfold Header.Length, len in H; cbn in H; lia|].
  cbn [app]. rewrite firstn_app.
  replace (4 - length rest)%nat with 0%nat
    by (unfold Header.Length, len in H; cbn [length] in H; lia).
  cbn [firstn]. rewrite app_nil_r. reflexivity.
Qed.

Lemma slice_app_l (data extra : list byte) (lo hi : Z) :
  0 <= lo -> lo <= hi -> hi <= len data ->
  slice (data ++ extra) lo hi = slice data lo hi.
Proof.
  intros H0 H1 H2.
  rewrite !slice_in_range by (rewrite ?len_app; pose proof (len_nonneg extra); lia).
  f_equal. rewrite skipn_app, firstn_app.
  replace (Z.to_nat (hi - lo) - length (skipn (Z.to_nat lo) data))%nat with 0%nat
    by (rewrite length_skipn; unfold len in H2; lia).
  cbn [firstn]. rewrite app_nil_r. reflexivity.
Qed.

Lemma index_app_l (data extra : list byte) (i : Z) :
  0 <= i < len data -> index (data ++ extra) i = index data i.
Proof.
  intros [H0 H1]. unfold index.
  destruct (0 <=? i); [|reflexivity].
  apply nth_error_app1. unfold len in H1; lia.
Qed.

Section TrailingBytes.
Context {MT : MessageTypes} {TC : TagCodec} {FC : FileCodec}.

Lemma read_addrs_app (data extra : list byte) (count : nat) :
  forall (pos : Z) (acc : list (option net.TCPAddr)),
    0 <= pos ->
    pos + 6 * Z.of_nat count <= len data ->
    ServerListMessage.read_addrs count (data ++ extra) pos acc
    = ServerListMessage.read_addrs count data pos acc.
Proof.
  induction count as [|count IH]; intros pos acc H0 H1; cbn [ServerListMessage.read_addrs];
    [reflexivity|].
  rewrite !(@slice_app_l data extra) by lia.
  rewrite !slice_in_range by lia.
  apply IH; lia.
Qed.

(** X4. For the variants without tags and files, a [Decode] that succeeded
    on a buffer succeeds with the same result on the buffer followed by any
    further bytes. *)
Theorem Decode_trailing_bytes (m m' : Message) (data extra : list byte) :
  tagless m = true ->
  Decode m data = Returned m' None ->
  Decode m (data ++ extra) = Returned m' None.
Proof.
  intros T D.
  destruct (precheck m data) as [e|] eqn:P;
    [rewrite (Decode_precheck_fail m data P) in D; discriminate|].
  destruct (precheck_pass m data P) as (header & HD & G & I).
  apply orb_false_iff in G as G'; destruct G' as [G1 G2]; apply Z.ltb_ge in G1, G2.
  pose proof (Header_Decode_inr data HD) as H5.
  pose proof (min_length_ge_6 m) as H6.
  pose proof (len_nonneg extra) as He.
  assert (HD' : Header.Decode (data ++ extra) = inr header)
    by (rewrite Header_Decode_app; assumption).
  assert (I' : index (data ++ extra) 5 = Some (Type_ m))
    by (rewrite index_app_l; [assumption | lia]).
  assert (G' : (len (data ++ extra) <? HeaderLength + checked_size m header)
               || (len (data ++ extra) <? min_length m) = false)
    by (apply orb_false_iff; split; apply Z.ltb_ge; rewrite len_app; lia).
  revert D.
  destruct m as [m|m|m|m|m|m|m|m]; try discriminate T;
    cbn [checked_size min_length Type_] in *; unfold_Type;
    unfold_Decode; rewrite HD, HD'; cbv beta iota; rewrite G, G', I, I'; cbv beta iota;
    rewrite byte_eqb_refl; cbn [negb]; cbv beta iota.
  - rewrite (@slice_app_l data extra) by (unfold HeaderLength, Header.Length in *; lia).
    in_range.
    match goal with
    | |- context [len data <? ?x] => destruct (len data <? x) eqn:C
    end; [discriminate|].
    apply Z.ltb_ge in C.
    match type of C with
    | context [Uint16 ?s] => pose proof (Uint16_nonneg s)
    end.
    match goal with
    | |- context [len (data ++ extra) <? ?x] =>
      replace (len (data ++ extra) <? x) with false
        by (symmetry; apply Z.ltb_ge; rewrite len_app; lia)
    end.
    rewrite (@slice_app_l data extra) by (unfold HeaderLength, Header.Length in *; lia).
    trivial.
  - rewrite !(@slice_app_l data extra) by (unfold HeaderLength, Header.Length in *; lia).
    trivial.
  - trivial.
  - rewrite index_app_l by (unfold HeaderLength, Header.Length in *; lia).
    rewrite index_in_range by (unfold HeaderLength, Header.Length in *; lia).
    match goal with
    | |- context [len data <? ?x] => destruct (len data <? x) eqn:C
    end; [discriminate|].
    apply Z.ltb_ge in C.
    match type of C with
    | context [byte.unsigned ?c] => pose proof (byte.unsigned_range c) as Hc
    end.
    match goal with
    | |- context [len (data ++ extra) <? ?x] =>
      replace (len (data ++ extra) <? x) with false
        by (symmetry; apply Z.ltb_ge; rewrite len_app; lia)
    end.
    rewrite read_addrs_app by (unfold HeaderLength, Header.Length in *; lia).
    trivial.
  - rewrite !(@slice_app_l data extra) by (unfold HeaderLength, Header.Length in *; lia).
    trivial.
Qed.

End TrailingBytes.

Section TrailingBytesRuns.
#[local] Existing Instance ed2k_types.
#[local] Existing Instance byte_tags.
#[local] Existing Instance byte_files.

Lemma Decode_trailing_bytes_witness :
  Decode (Server ServerMessage.zero)
         (map B [227; 5; 0; 0; 0; 56; 2; 0; 104; 105] ++ map B [33; 33; 33])
  = Returned (Server (ServerMessage.mk (Header.mk (B 227) 5) (map B [104; 105]))) None.
Proof.
  apply Decode_trailing_bytes; [reflexivity | vm_compute; reflexivity].
Defined.

End TrailingBytesRuns.

(** ** What Decode reads of the receiver *)

Section Receiver.
Context {MT : MessageTypes} {TC : TagCodec} {FC : FileCodec}.

(** X5. For [ServerMessage], [IDChangeMessage], [GetServerListMessage] and
    [ServerStatusMessage], the result of a successful [Decode] does not
    depend on what the receiver held: it is the result of decoding into a
    zero-valued receiver. *)
Theorem Decode_overwrites_receiver (m m' : Message) (data : list byte) :
  overwritten m = true ->
  (Decode m data = Returned m' None <-> Decode (zero_of m) data = Returned m' None).
Proof.
  intros O.
  destruct m as [m|m|m|m|m|m|m|m]; try discriminate O;
    cbn [zero_of]; unfold_Decode;
    repeat match goal with
           | |- context [match ?x with _ => _ end] => destruct x
           end;
    cbn [outcome_map ServerMessage.Header ServerMessage.Messages
         IDChangeMessage.Header IDChangeMessage.ClientID IDChangeMessage.Bitmap
         ServerStatusMessage.Header ServerStatusMessage.UserCount
         ServerStatusMessage.FileCount];
    split; intros H; first [discriminate H | exact H].
Qed.

Lemma read_all_appends {A : Type} (read : list byte -> error + (A * list byte))
      (count : nat) :
  forall (r : list byte) (acc xs : list A) (err : option error),
    read_all read count r acc = (xs, err) ->
    exists new, xs = acc ++ new
                /\ (length new <= count)%nat
                /\ (err = None -> length new = count).
Proof.
  induction count as [|count IH]; intros r acc xs err; cbn [read_all].
  - intros [= <- <-]; exists []; rewrite app_nil_r; repeat split; constructor.
  - destruct (read r) as [e|[x r']].
    + intros [= <- <-]; exists []; rewrite app_nil_r; repeat split;
        [cbn; lia | discriminate].
    + intros H; destruct (IH _ _ _ _ H) as (new & -> & L & E).
      exists (x :: new); rewrite <- app_assoc; repeat split.
      * cbn [length]; lia.
      * intros He; cbn [length]; rewrite (E He); reflexivity.
Qed.

(** X6. [LoginMessage.Decode], [ServerIdentMessage.Decode] and
    [OfferFilesMessage.Decode] keep the tags or files that the receiver
    holds and append what they read, whether they return an error or not;
    without an error the number of elements appended is the count that the
    buffer declares (at offsets 28, 28 and 6). *)
Theorem Decode_appends_elements (data : list byte) (err : option error) :
  (forall m m' : LoginMessage.t,
      LoginMessage.Decode m data = Returned m' err ->
      exists new, LoginMessage.Tags m' = LoginMessage.Tags m ++ new
                  /\ (err = None ->
                      exists s, slice data 28 32 = Some s /\ len new = Uint32 s))
  /\ (forall m m' : ServerIdentMessage.t,
         length (ServerIdentMessage.Hash m) = 16%nat ->
         ServerIdentMessage.Decode m data = Returned m' err ->
         exists new, ServerIdentMessage.Tags m' = ServerIdentMessage.Tags m ++ new
                     /\ (err = None ->
                         exists s, slice data 28 32 = Some s /\ len new = Uint32 s))
  /\ (forall m m' : OfferFilesMessage.t,
         OfferFilesMessage.Decode m data = Returned m' err ->
         exists new, OfferFilesMessage.Files m' = OfferFilesMessage.Files m ++ new
                     /\ (err = None ->
                         exists s, slice data 6 10 = Some s /\ len new = Uint32 s)).
Proof.
  split; [|split].
  - intros m m'. unfold LoginMessage.Decode.
    destruct (Header.Decode data) as [e|header].
    { intros [= <- <-]; exists []; rewrite app_nil_r; split; [reflexivity | discriminate]. }
    cbv zeta.
    destruct ((len data <? HeaderLength + Header.Size header)
              || (len data <? HeaderLength + 1 + 16 + 4 + 2 + 4)) eqn:G.
    { intros [= <- <-]; exists []; rewrite app_nil_r; split; [reflexivity | discriminate]. }
    destruct (index data 5) as [b|]; [|discriminate].
    destruct (negb (Byte.eqb b MessageLoginRequest)).
    { intros [= <- <-]; exists []; rewrite app_nil_r; split; [reflexivity | discriminate]. }
    apply orb_false_iff in G as [_ G2]; apply Z.ltb_ge in G2.
    unfold slice_from. repeat in_range.
    cbn [LoginMessage.Header LoginMessage.UID LoginMessage.ClientID LoginMessage.Port
         LoginMessage.Tags].
    match goal with
    | |- context [read_all ReadTag ?n ?r ?acc] =>
      destruct (read_all ReadTag n r acc) as [tags e'] eqn:R
    end.
    intros [= <- <-]. destruct (read_all_appends _ _ _ _ R) as (new & -> & _ & L).
    exists new; split; [reflexivity|]. intros He.
    eexists; split; [reflexivity|].
    unfold len; rewrite (L He), Z2Nat.id by apply Uint32_nonneg. reflexivity.
  - intros m m' A. unfold ServerIdentMessage.Decode.
    destruct (Header.Decode data) as [e|header].
    { intros [= <- <-]; exists []; rewrite app_nil_r; split; [reflexivity | discriminate]. }
    cbv zeta.
    destruct ((len data <? HeaderLength + Header.Size (ServerIdentMessage.Header m))
              || (len data <? HeaderLength + 29)) eqn:G.
    { intros [= <- <-]; exists []; rewrite app_nil_r; split; [reflexivity | discriminate]. }
    destruct (index data 5) as [b|]; [|discriminate].
    destruct (negb (Byte.eqb b MessageServerIdent)).
    { intros [= <- <-]; exists []; rewrite app_nil_r; split; [reflexivity | discriminate]. }
    apply orb_false_iff in G as [_ G2]; apply Z.ltb_ge in G2.
    unfold slice_from. in_range.
    unfold copy. cbn [ServerIdentMessage.Hash].
    rewrite A, length_slice by (unfold HeaderLength, Header.Length in *; lia).
    replace (Nat.min 16 (Z.to_nat (len data - (HeaderLength + 1)))) with 16%nat
      by (unfold HeaderLength, Header.Length in *; lia).
    cbv beta iota.
    repeat in_range.
    cbn [ServerIdentMessage.Header ServerIdentMessage.Hash ServerIdentMessage.IP
         ServerIdentMessage.Port ServerIdentMessage.Tags].
    match goal with
    | |- context [read_all ReadTag ?n ?r ?acc] =>
      destruct (read_all ReadTag n r acc) as [tags e'] eqn:R
    end.
    intros [= <- <-]. destruct (read_all_appends _ _ _ _ R) as (new & -> & _ & L).
    exists new; split; [reflexivity|]. intros He.
    eexists; split; [reflexivity|].
    unfold len; rewrite (L He), Z2Nat.id by apply Uint32_nonneg. reflexivity.
  - intros m m'. unfold OfferFilesMessage.Decode.
    destruct (Header.Decode data) as [e|header].
    { intros [= <- <-]; exists []; rewrite app_nil_r; split; [reflexivity | discriminate]. }
    cbv zeta.
    destruct ((len data <? HeaderLength + Header.Size header)
              || (len data <? HeaderLength + 5)) eqn:G.
    { intros [= <- <-]; exists []; rewrite app_nil_r; split; [reflexivity | discriminate]. }
    destruct (index data 5) as [b|]; [|discriminate].
    destruct (negb (Byte.eqb b MessageOfferFiles)).
    { intros [= <- <-]; exists []; rewrite app_nil_r; split; [reflexivity | discriminate]. }
    apply orb_false_iff in G as [_ G2]; apply Z.ltb_ge in G2.
    unfold slice_from. repeat in_range.
    cbn [OfferFilesMessage.Header OfferFilesMessage.Files].
    match goal with
    | |- context [read_all ReadFile ?n ?r ?acc] =>
      destruct (read_all ReadFile n r acc) as [files e'] eqn:R
    end.
    intros [= <- <-]. destruct (read_all_appends _ _ _ _ R) as (new & -> & _ & L).
    exists new; split; [reflexivity|]. intros He.
    eexists; split; [reflexivity|].
    unfold len; rewrite (L He), Z2Nat.id by apply Uint32_nonneg. reflexivity.
Qed.

End Receiver.

Section ReceiverRuns.
#[local] Existing Instance ed2k_types.
#[local] Existing Instance byte_tags.
#[local] Existing Instance byte_files.

Lemma Decode_overwrites_receiver_witness :
  Decode (IDChange (IDChangeMessage.mk (Header.mk (B 1) 77) 5 6))
         (map B [227; 9; 0; 0; 0; 64; 4; 3; 2; 1; 1; 0; 0; 0])
  = Returned (IDChange (IDChangeMessage.mk (Header.mk (B 227) 9) 16909060 1)) None
  <-> Decode (zero_of (IDChange (IDChangeMessage.mk (Header.mk (B 1) 77) 5 6)))
             (map B [227; 9; 0; 0; 0; 64; 4; 3; 2; 1; 1; 0; 0; 0])
      = Returned (IDChange (IDChangeMessage.mk (Header.mk (B 227) 9) 16909060 1)) None.
Proof.
  apply Decode_overwrites_receiver. reflexivity.
Defined.

Lemma Decode_appends_elements_witness :
  let m := OfferFilesMessage.mk Header.zero [(B 9, B 9)] in
  let m' := OfferFilesMessage.mk (Header.mk (B 227) 9) [(B 9, B 9); (B 1, B 2); (B 3, B 4)] in
  exists new,
    OfferFilesMessage.Files m' = OfferFilesMessage.Files m ++ new
    /\ (@None error = None ->
        exists s, slice (map B [227; 9; 0; 0; 0; 21; 2; 0; 0; 0; 1; 2; 3; 4]) 6 10 = Some s
                  /\ len new = Uint32 s).
Proof.
  apply (proj2 (proj2 (Decode_appends_elements
                         (map B [227; 9; 0; 0; 0; 21; 2; 0; 0; 0; 1; 2; 3; 4]) None))).
  vm_compute; reflexivity.
Defined.

End ReceiverRuns.

(** ** ServerListMessage: the entries that Decode appends *)

Section ServerListDecode.
Context {MT : MessageTypes}.
Import ServerListMessage.

(** X7. When [ServerListMessage.Decode] returns no error, the receiver holds
    the servers it held before, followed by as many new entries as the byte
    at offset 6 says; each new entry is a non-nil address with a 4-byte IP, a
    port below 65536 and no zone, and the buffer has six bytes for each. *)
Theorem ServerListMessage_Decode_entries (m m' : t) (data : list byte) :
  Decode m data = Returned m' None ->
  exists count new,
    index data 6 = Some count
    /\ Servers m' = Servers m ++ new
    /\ len new = byte.unsigned count
    /\ Forall wire_addr new
    /\ 7 + 6 * byte.unsigned count <= len data.
Proof.
  unfold Decode.
  destruct (Header.Decode data) as [e|header]; [discriminate|].
  cbv zeta.
  destruct ((len data <? HeaderLength + Header.Size header)
            || (len data <? HeaderLength + 2)) eqn:G; [discriminate|].
  destruct (index data 5) as [b|]; [|discriminate].
  destruct (negb (Byte.eqb b MessageServerList)); [discriminate|].
  apply orb_false_iff in G as [_ G2]; apply Z.ltb_ge in G2.
  change (HeaderLength + 1) with 6.
  destruct (index data 6) as [c|] eqn:I6; [|discriminate].
  change (6 + 1) with 7.
  destruct (len data <? 7 + byte.unsigned c * 6) eqn:C; [discriminate|].
  apply Z.ltb_ge in C.
  pose proof (byte.unsigned_range c) as Hc.
  cbn [Servers Header].
  destruct (@read_addrs_returns data (Z.to_nat (byte.unsigned c)) 7 (Servers m))
    as (new & R & L & W); [lia | lia |].
  rewrite R. intros [= <-].
  exists c, new; cbn [Servers]. repeat split; try assumption; try reflexivity;
    unfold len in *; lia.
Qed.

Lemma concat_addr_bytes_firstn (k : nat) (servers : list (option net.TCPAddr)) :
  concat (map addr_bytes servers)
  = concat (map addr_bytes (firstn k servers)) ++ concat (map addr_bytes (skipn k servers)).
Proof.
  rewrite <- concat_app, <- map_app, firstn_skipn; reflexivity.
Qed.

Lemma Forall_wire_firstn (k : nat) (servers : list (option net.TCPAddr)) :
  Forall wire_addr servers -> Forall wire_addr (firstn k servers).
Proof.
  intros H. rewrite <- (firstn_skipn k servers) in H.
  apply Forall_app in H as [H _]; exact H.
Qed.

(** What [Decode] makes of an encoded list, for any receiver and any number
    of servers. *)
Lemma ServerListMessage_Decode_frame_any
      (r : t) (p : byte) (servers : list (option net.TCPAddr)) :
  Forall wire_addr servers ->
  Decode r (frame p MessageServerList
                  (byte.of_Z (len servers) :: concat (map addr_bytes servers)))
  = Returned (mk (Header.mk p ((2 + 6 * len servers) mod 2 ^ 32))
                 (Servers r ++ firstn (Z.to_nat (len servers mod 256)) servers)) None.
Proof.
  intros Hw.
  pose proof (len_addr_bytes_wire Hw) as L.
  pose proof (len_nonneg servers) as L0.
  pose proof (Z.mod_pos_bound (len servers) 256 eq_refl) as Hk.
  pose proof (Z.mod_le (len servers) 256 L0 eq_refl) as Hle.
  set (k := Z.to_nat (len servers mod 256)).
  assert (Lk : length (firstn k servers) = k)
    by (rewrite length_firstn; unfold len in *; lia).
  unfold Decode. frame_validation.
  change (HeaderLength + 1) with 6. rewrite index_frame_6.
  rewrite byte.unsigned_of_Z. unfold byte.wrap. change (2 ^ 8) with 256.
  assert (C : (len (frame p MessageServerList
                          (byte.of_Z (len servers) :: concat (map addr_bytes servers)))
               <? 6 + 1 + len servers mod 256 * 6) = false)
    by (apply Z.ltb_ge; rewrite len_frame, len_cons, L; lia).
  rewrite C. fold k. rewrite <- Lk at 1.
  rewrite (@read_addrs_wire (firstn k servers) _
             (p :: PutUint32 (1 + len (byte.of_Z (len servers)
                                        :: concat (map addr_bytes servers)))
                ++ [MessageServerList; byte.of_Z (len servers)])
             (concat (map addr_bytes (skipn k servers))) (6 + 1)
             (Servers (mk (Header.mk p
                  ((1 + len (byte.of_Z (len servers)
                             :: concat (map addr_bytes servers))) mod 2 ^ 32))
                  (Servers r))) (Forall_wire_firstn k Hw)).
  - cbn [Servers Header]. rewrite len_cons, L.
    replace (1 + (1 + 6 * len servers)) with (2 + 6 * len servers) by lia.
    reflexivity.
  - unfold frame. rewrite <- concat_addr_bytes_firstn.
    cbn [app]. rewrite <- app_assoc. reflexivity.
  - rewrite len_cons, len_app, len_PutUint32; reflexivity.
Qed.

(** X8. [Encode] writes the number of servers in one byte.  Decoding an
    encoded list of servers (non-nil IPv4 addresses with 16-bit ports) into
    any receiver appends the first [len(m.Servers) mod 256] of them to the
    servers of the receiver: all of them exactly when there are fewer than
    256. *)
Theorem ServerListMessage_count_wraps
        (r : t) (h : Header.t) (servers : list (option net.TCPAddr)) :
  Forall wire_addr servers ->
  exists data new,
    Encode (Some (mk h servers)) = (data, None)
    /\ Decode r data
       = Returned (mk (Header.mk (Header.Protocol h) ((len data - 5) mod 2 ^ 32))
                      (Servers r ++ new)) None
    /\ new = firstn (Z.to_nat (len servers mod 256)) servers
    /\ (new = servers <-> len servers < 256).
Proof.
  intros Hw. eexists; eexists; split; [apply ServerListMessage_Encode_frame|].
  cbn [Servers Header].
  split; [|split; [reflexivity|]].
  - rewrite (ServerListMessage_Decode_frame_any r _ Hw).
    do 3 f_equal.
    rewrite len_frame, len_cons, (len_addr_bytes_wire Hw). f_equal; lia.
  - pose proof (len_nonneg servers) as L0.
    pose proof (Z.mod_pos_bound (len servers) 256 eq_refl) as Hk.
    split.
    + intros E. apply (f_equal (@length _)) in E.
      rewrite length_firstn in E. unfold len in *. lia.
    + intros H. rewrite Z.mod_small by lia.
      unfold len; rewrite Nat2Z.id. apply firstn_all.
Qed.

End ServerListDecode.

Section ServerListRuns.
#[local] Existing Instance ed2k_types.

Lemma ServerListMessage_Decode_entries_witness :
  exists count new,
    index (map B [227; 8; 0; 0; 0; 50; 1; 10; 0; 0; 1; 53; 18]) 6 = Some count
    /\ [None; Some (net.mkTCPAddr (map B [10; 0; 0; 1]) 4661 EmptyString)] = [None] ++ new
    /\ len new = byte.unsigned count
    /\ Forall wire_addr new
    /\ 7 + 6 * byte.unsigned count <= len (map B [227; 8; 0; 0; 0; 50; 1; 10; 0; 0; 1; 53; 18]).
Proof.
  apply (@ServerListMessage_Decode_entries ed2k_types
           (ServerListMessage.mk Header.zero [None])
           (ServerListMessage.mk (Header.mk (B 227) 8)
              [None; Some (net.mkTCPAddr (map B [10; 0; 0; 1]) 4661 EmptyString)])).
  vm_compute; reflexivity.
Defined.

Lemma ServerListMessage_count_wraps_witness :
  let a := Some (net.mkTCPAddr (map B [10; 0; 0; 1]) 4661 EmptyString) in
  exists data new,
    ServerListMessage.Encode (Some (ServerListMessage.mk Header.zero [a; a])) = (data, None)
    /\ ServerListMessage.Decode (ServerListMessage.mk Header.zero [None]) data
       = Returned (ServerListMessage.mk (Header.mk Byte.x00 ((len data - 5) mod 2 ^ 32))
                                        ([None] ++ new)) None
    /\ new = firstn (Z.to_nat (len [a; a] mod 256)) [a; a]
    /\ (new = [a; a] <-> len [a; a] < 256).
Proof.
  apply (@ServerListMessage_count_wraps ed2k_types).
  repeat constructor; cbn; lia.
Defined.

End ServerListRuns.

(** ** Decoding into a receiver that holds tags or files *)

Section UsedReceiver.
Context {MT : MessageTypes} {TC : TagCodec} {FC : FileCodec}.

(** X9. Decoding an encoded [OfferFilesMessage] into a receiver that holds
    files appends the decoded files to them: [Decode] does not reset the
    list, so decoding twice into one receiver gives every file twice. *)
Theorem OfferFilesMessage_Decode_appends
        (r m : OfferFilesMessage.t) (data : list byte) :
  codec_roundtrip File_WriteTo ReadFile ->
  len (OfferFilesMessage.Files m) < 2 ^ 32 ->
  OfferFilesMessage.Encode (Some m) = (data, None) ->
  OfferFilesMessage.Decode r data
  = Returned (OfferFilesMessage.mk
                (Header.mk (Header.Protocol (OfferFilesMessage.Header m))
                           ((len data - 5) mod 2 ^ 32))
                (OfferFilesMessage.Files r ++ OfferFilesMessage.Files m)) None.
Proof.
  intros RT Hn E. destruct m as [h files].
  rewrite OfferFilesMessage_Encode_frame in E.
  cbn [OfferFilesMessage.Files OfferFilesMessage.Header] in *.
  destruct (write_all File_WriteTo files []) as [e|fb] eqn:W; [discriminate|].
  apply (f_equal fst) in E; cbn [fst] in E; subst data.
  unfold OfferFilesMessage.Decode. frame_validation.
  frame_slice (@nil byte) (PutUint32 (len files)) fb.
  frame_slice_from (PutUint32 (len files)) fb.
  rewrite (Uint32_PutUint32_len files Hn).
  cbn [OfferFilesMessage.Files OfferFilesMessage.Header].
  pose proof (read_all_write_all RT files [] (OfferFilesMessage.Files r) W) as R.
  rewrite app_nil_r in R; rewrite R.
  do 3 f_equal. rewrite len_frame. f_equal; lia.
Qed.

(** X10. The same for the tags of a [LoginMessage]: the header, the UID, the
    client ID and the port of the receiver are replaced, the tags are
    appended. *)
Theorem LoginMessage_Decode_appends
        (r m : LoginMessage.t) (data : list byte) :
  codec_roundtrip Tag_WriteTo ReadTag ->
  length (LoginMessage.UID r) = 16%nat ->
  length (LoginMessage.UID m) = 16%nat ->
  0 <= LoginMessage.ClientID m < 2 ^ 32 ->
  0 <= LoginMessage.Port m < 2 ^ 16 ->
  len (LoginMessage.Tags m) < 2 ^ 32 ->
  LoginMessage.Encode (Some m) = (data, None) ->
  LoginMessage.Decode r data
  = Returned (LoginMessage.mk
                (Header.mk (Header.Protocol (LoginMessage.Header m))
                           ((len data - 5) mod 2 ^ 32))
                (LoginMessage.UID m) (LoginMessage.ClientID m) (LoginMessage.Port m)
                (LoginMessage.Tags r ++ LoginMessage.Tags m)) None.
Proof.
  intros RT Hr Hu Hc Hp Hn E. destruct m as [h uid c port tags].
  rewrite LoginMessage_Encode_frame in E.
  cbn [LoginMessage.Tags LoginMessage.UID LoginMessage.ClientID LoginMessage.Port
       LoginMessage.Header] in *.
  destruct (write_all Tag_WriteTo tags []) as [e|tb] eqn:W; [discriminate|].
  apply (f_equal fst) in E; cbn [fst] in E; subst data.
  unfold LoginMessage.Decode. frame_validation.
  frame_slice (@nil byte) uid (PutUint32 c ++ PutUint16 port ++ PutUint32 (len tags) ++ tb).
  frame_slice uid (PutUint32 c) (PutUint16 port ++ PutUint32 (len tags) ++ tb).
  frame_slice (uid ++ PutUint32 c) (PutUint16 port) (PutUint32 (len tags) ++ tb).
  frame_slice (uid ++ PutUint32 c ++ PutUint16 port) (PutUint32 (len tags)) tb.
  frame_slice_from (uid ++ PutUint32 c ++ PutUint16 port ++ PutUint32 (len tags)) tb.
  cbn [LoginMessage.Header LoginMessage.UID LoginMessage.ClientID LoginMessage.Port
       LoginMessage.Tags].
  rewrite (Uint32_PutUint32_len tags Hn).
  pose proof (read_all_write_all RT tags [] (LoginMessage.Tags r) W) as R.
  rewrite app_nil_r in R; rewrite R.
  rewrite copy_full by (rewrite Hr, Hu; reflexivity).
  cbn [fst]. rewrite Uint32_PutUint32, Uint16_PutUint16.
  rewrite (Z.mod_small c), (Z.mod_small port) by lia.
  do 3 f_equal. rewrite len_frame. autorewrite with len. unfold len in *. f_equal; lia.
Qed.

End UsedReceiver.

Section UsedReceiverRuns.
#[local] Existing Instance ed2k_types.
#[local] Existing Instance byte_tags.
#[local] Existing Instance byte_files.

Lemma OfferFilesMessage_Decode_appends_witness :
  OfferFilesMessage.Decode
    (OfferFilesMessage.mk (Header.mk (B 227) 7) [(B 1, B 2)])
    (map B [227; 7; 0; 0; 0; 21; 1; 0; 0; 0; 1; 2])
  = Returned (OfferFilesMessage.mk (Header.mk (B 227) 7) [(B 1, B 2); (B 1, B 2)]) None.
Proof.
  apply OfferFilesMessage_Decode_appends
    with (m := @OfferFilesMessage.mk byte_files (Header.mk (B 227) 7) [(B 1, B 2)]).
  - exact byte_files_roundtrip.
  - vm_compute; reflexivity.
  - vm_compute; reflexivity.
Defined.

Lemma LoginMessage_Decode_appends_witness :
  LoginMessage.Decode
    (LoginMessage.mk Header.zero (map B (repeat 9 (Z.to_nat 16))) 5 6 [(B 7, B 8)])
    (map B ([227; 30; 0; 0; 0; 1] ++ repeat 7 (Z.to_nat 16)
            ++ [4; 3; 2; 1; 54; 18; 1; 0; 0; 0; 137; 1; 2]))
  = Returned (LoginMessage.mk (Header.mk (B 227) 30) (map B (repeat 7 (Z.to_nat 16)))
                              16909060 4662 [(B 7, B 8); (B 1, B 2)]) None.
Proof.
  apply LoginMessage_Decode_appends
    with (m := @LoginMessage.mk byte_tags (Header.mk (B 227) 0) (map B (repeat 7 (Z.to_nat 16)))
                               16909060 4662 [(B 1, B 2)]).
  - exact byte_tags_roundtrip.
  - reflexivity.
  - reflexivity.
  - cbn; lia.
  - cbn; lia.
  - vm_compute; reflexivity.
  - vm_compute; reflexivity.
Defined.

End UsedReceiverRuns.

(** ** Errors of Encode *)

Lemma write_all_first_error {A : Type} (write : A -> error + list byte) (xs : list A) :
  forall buf,
    match write_all write xs buf with
    | inl e => first_error write xs = Some e
    | inr _ => first_error write xs = None
    end.
Proof.
  induction xs as [|x xs IH]; intros buf; cbn [write_all first_error]; [reflexivity|].
  destruct (write x) as [e|bs]; [reflexivity | apply IH].
Qed.

Section EncodeErrors.
Context {MT : MessageTypes} {TC : TagCodec} {FC : FileCodec}.

(** X11. The error that [Encode] returns is the error of the first tag or
    file of the message that fails to write, and nil when none fails (always
    so for the variants without tags and files); with an error, [Encode]
    returns no bytes. *)
Theorem Encode_error (m : Message) (data : list byte) (err : option error) :
  Encode m = (data, err) ->
  err = first_write_error m /\ (err <> None -> data = []).
Proof.
  destruct m as [m|m|m|m|m|m|m|m]; cbn [Encode first_write_error].
  - rewrite LoginMessage_Encode_frame.
    pose proof (write_all_first_error Tag_WriteTo (LoginMessage.Tags m) []) as F.
    destruct (write_all Tag_WriteTo (LoginMessage.Tags m) []);
      intros [= <- <-]; split; auto; congruence.
  - rewrite ServerMessage_Encode_frame; intros [= <- <-]; split; congruence.
  - rewrite IDChangeMessage_Encode_frame; intros [= <- <-]; split; congruence.
  - rewrite OfferFilesMessage_Encode_frame.
    pose proof (write_all_first_error File_WriteTo (OfferFilesMessage.Files m) []) as F.
    destruct (write_all File_WriteTo (OfferFilesMessage.Files m) []);
      intros [= <- <-]; split; auto; congruence.
  - rewrite GetServerListMessage_Encode_frame; intros [= <- <-]; split; congruence.
  - rewrite ServerListMessage_Encode_frame; intros [= <- <-]; split; congruence.
  - rewrite ServerStatusMessage_Encode_frame; intros [= <- <-]; split; congruence.
  - rewrite ServerIdentMessage_Encode_frame.
    pose proof (write_all_first_error Tag_WriteTo (ServerIdentMessage.Tags m) []) as F.
    destruct (write_all Tag_WriteTo (ServerIdentMessage.Tags m) []);
      intros [= <- <-]; split; auto; congruence.
Qed.

End EncodeErrors.

Lemma Encode_error_witness :
  Some ErrInvalidLength
  = @first_write_error small_tags byte_files
      (Login (@LoginMessage.mk small_tags Header.zero (map B (repeat 7 (Z.to_nat 16)))
                               1 2 [5; 300; 7]))
  /\ (Some ErrInvalidLength <> None -> @nil byte = []).
Proof.
  apply (@Encode_error ed2k_types small_tags byte_files). vm_compute; reflexivity.
Defined.

(** ** The length of an encoded message *)

Section Lengths.
Context {MT : MessageTypes}.

(** X12. [Encode] never fails on the four variants below and returns 14
    bytes for an [IDChangeMessage] and for a [ServerStatusMessage], 6 bytes
    for a [GetServerListMessage], and 8 bytes plus the text for a
    [ServerMessage], whatever the text's length. *)
Theorem Encode_lengths :
  (forall m : IDChangeMessage.t,
      exists data, IDChangeMessage.Encode (Some m) = (data, None) /\ len data = 14)
  /\ (forall m : ServerStatusMessage.t,
         exists data, ServerStatusMessage.Encode (Some m) = (data, None) /\ len data = 14)
  /\ (forall m : GetServerListMessage.t,
         exists data, GetServerListMessage.Encode (Some m) = (data, None) /\ len data = 6)
  /\ (forall m : ServerMessage.t,
         exists data, ServerMessage.Encode (Some m) = (data, None)
                      /\ len data = 8 + len (ServerMessage.Messages m)).
Proof.
  repeat split; intros m; eexists; split.
  - apply IDChangeMessage_Encode_frame.
  - rewrite len_frame; autorewrite with len; reflexivity.
  - apply ServerStatusMessage_Encode_frame.
  - rewrite len_frame; autorewrite with len; reflexivity.
  - apply GetServerListMessage_Encode_frame.
  - rewrite len_frame; reflexivity.
  - apply ServerMessage_Encode_frame.
  - rewrite len_frame; autorewrite with len; lia.
Qed.

End Lengths.

(** ** ServerIdentMessage: a receiver that was used, a message without tags *)

Section ServerIdentReuse.
Context {MT : MessageTypes} {TC : TagCodec}.
Import ServerIdentMessage.

Lemma ServerIdentMessage_Decode_stale (m : t) (data : list byte) :
  len data < HeaderLength + Header.Size (Header m) ->
  Decode m data = Returned m (Some ErrShortBuffer).
Proof.
  intros H. unfold Decode.
  destruct (Header.Decode data) as [e|header] eqn:HD.
  - apply Header_Decode_inl in HD as [-> _]; reflexivity.
  - cbv zeta. apply Z.ltb_lt in H; rewrite H. reflexivity.
Qed.

Lemma ServerIdentMessage_Decode_header (m m' : t) (data : list byte) (header : Header.t) :
  Decode m data = Returned m' None ->
  Header.Decode data = inr header ->
  Header m' = header.
Proof.
  unfold Decode. intros D HD; rewrite HD in D; revert D. cbv zeta.
  repeat match goal with
         | |- context [match ?x with _ => _ end] => destruct x
         end;
    intros [= <-] || discriminate; reflexivity.
Qed.

(** X13. After [ServerIdentMessage.Decode] has succeeded on a buffer whose
    header declares a payload of [Size] bytes, a second [Decode] into the
    same receiver returns [ErrShortBuffer] on every buffer shorter than
    [5 + Size], whatever that buffer declares and holds: the length check
    reads the size that the first call stored. *)
Theorem ServerIdentMessage_Decode_reuse
        (r m1 : t) (data1 data2 : list byte) (header1 : Header.t) :
  Decode r data1 = Returned m1 None ->
  Header.Decode data1 = inr header1 ->
  len data2 < 5 + Header.Size header1 ->
  Decode m1 data2 = Returned m1 (Some ErrShortBuffer).
Proof.
  intros D HD L.
  apply ServerIdentMessage_Decode_stale.
  rewrite (ServerIdentMessage_Decode_header _ _ D HD). exact L.
Qed.

(** X14. A [ServerIdentMessage] without tags encodes to 32 bytes, and
    [Decode] returns [ErrShortBuffer] on them for every receiver: its static
    length check asks for 29 bytes after the header, and the fixed part of
    the body has 27. *)
Theorem ServerIdentMessage_no_tags_undecodable
        (r : t) (h : Header.t) (hash : list byte) (ip port : Z) :
  length hash = 16%nat ->
  exists data,
    Encode (Some (mk h hash ip port [])) = (data, None)
    /\ len data = 32
    /\ Decode r data = Returned r (Some ErrShortBuffer).
Proof.
  intros Hh. eexists; split; [|split].
  - rewrite ServerIdentMessage_Encode_frame; reflexivity.
  - cbn [Header Hash IP Port Tags].
    rewrite len_frame. autorewrite with len. unfold len; lia.
  - cbn [Header Hash IP Port Tags].
    unfold Decode. rewrite Header_Decode_frame. cbv zeta.
    match goal with
    | |- context [(?a <? ?b) || (len ?d <? HeaderLength + 29)] =>
      replace (len d <? HeaderLength + 29) with true
        by (symmetry; apply Z.ltb_lt; rewrite len_frame; autorewrite with len;
            unfold len, HeaderLength, Header.Length; lia)
    end.
    rewrite orb_true_r. reflexivity.
Qed.

End ServerIdentReuse.

Section ServerIdentRuns.
#[local] Existing Instance ed2k_types.
#[local] Existing Instance byte_tags.

Lemma ServerIdentMessage_Decode_reuse_witness :
  let first := map B ([227; 30; 0; 0; 0; 65] ++ repeat 7 (Z.to_nat 16)
                      ++ [4; 3; 2; 1; 53; 18; 1; 0; 0; 0; 137; 1; 2]) in
  let m1 := ServerIdentMessage.mk (Header.mk (B 227) 30) (map B (repeat 7 (Z.to_nat 16)))
                                  16909060 4661 [(B 1, B 2)] in
  ServerIdentMessage.Decode m1 (firstn 34 first) = Returned m1 (Some ErrShortBuffer).
Proof.
  cbv zeta.
  apply ServerIdentMessage_Decode_reuse
    with (r := ServerIdentMessage.zero)
         (data1 := map B ([227; 30; 0; 0; 0; 65] ++ repeat 7 (Z.to_nat 16)
                          ++ [4; 3; 2; 1; 53; 18; 1; 0; 0; 0; 137; 1; 2]))
         (header1 := Header.mk (B 227) 30).
  - vm_compute; reflexivity.
  - vm_compute; reflexivity.
  - vm_compute; reflexivity.
Defined.

Lemma ServerIdentMessage_no_tags_undecodable_witness :
  exists data,
    ServerIdentMessage.Encode
      (Some (ServerIdentMessage.mk (Header.mk (B 227) 27) (map B (repeat 7 (Z.to_nat 16)))
                                   16909060 4661 []))
    = (data, None)
    /\ len data = 32
    /\ ServerIdentMessage.Decode ServerIdentMessage.zero data
       = Returned ServerIdentMessage.zero (Some ErrShortBuffer).
Proof.
  apply ServerIdentMessage_no_tags_undecodable. reflexivity.
Defined.

End ServerIdentRuns.

(** ** LoginMessage: fewer tags than declared *)

Section TruncatedTags.
Context {MT : MessageTypes} {TC : TagCodec}.

Lemma read_all_truncated (xs : list Tag) :
  forall (count : nat) (bs rest : list byte) (acc : list Tag) (e : error),
    codec_roundtrip Tag_WriteTo ReadTag ->
    write_all Tag_WriteTo xs [] = inr bs ->
    ReadTag rest = inl e ->
    (length xs < count)%nat ->
    read_all ReadTag count (bs ++ rest) acc = (acc ++ xs, Some e).
Proof.
  induction xs as [|x xs IH]; intros count bs rest acc e RT W F L;
    (destruct count as [|count]; [cbn in L; lia|]); cbn [write_all read_all] in *.
  - injection W as <-. cbn [app]. rewrite F, app_nil_r. reflexivity.
  - destruct (Tag_WriteTo x) as [e0|b0] eqn:Wx; [discriminate|].
    rewrite write_all_app in W.
    destruct (write_all Tag_WriteTo xs []) as [e1|bs'] eqn:WA; [discriminate|].
    injection W as <-. cbn [app]. rewrite <- app_assoc.
    rewrite (RT x b0 (bs' ++ rest) Wx).
    rewrite (IH count bs' rest (acc ++ [x]) e RT eq_refl F) by (cbn in L; lia).
    rewrite <- app_assoc. reflexivity.
Qed.

(** X15. On a well-framed buffer that declares more tags than it holds,
    [LoginMessage.Decode] returns the error that [ReadTag] gives on the
    exhausted reader, and the receiver holds the header, the UID, the client
    ID, the port and the tags that were read before the error. *)
Theorem LoginMessage_Decode_missing_tags
        (p : byte) (uid : list byte) (c port n : Z) (tags : list Tag) (tb : list byte)
        (e : error) :
  codec_roundtrip Tag_WriteTo ReadTag ->
  length uid = 16%nat ->
  write_all Tag_WriteTo tags [] = inr tb ->
  ReadTag [] = inl e ->
  len tags < n < 2 ^ 32 ->
  LoginMessage.Decode LoginMessage.zero
    (frame p MessageLoginRequest
           (uid ++ PutUint32 c ++ PutUint16 port ++ PutUint32 n ++ tb))
  = Returned (LoginMessage.mk (Header.mk p ((27 + len tb) mod 2 ^ 32))
                              uid (c mod 2 ^ 32) (port mod 2 ^ 16) tags) (Some e).
Proof.
  intros RT Hu W F Hn.
  unfold LoginMessage.Decode. frame_validation.
  frame_slice (@nil byte) uid (PutUint32 c ++ PutUint16 port ++ PutUint32 n ++ tb).
  frame_slice uid (PutUint32 c) (PutUint16 port ++ PutUint32 n ++ tb).
  frame_slice (uid ++ PutUint32 c) (PutUint16 port) (PutUint32 n ++ tb).
  frame_slice (uid ++ PutUint32 c ++ PutUint16 port) (PutUint32 n) tb.
  frame_slice_from (uid ++ PutUint32 c ++ PutUint16 port ++ PutUint32 n) tb.
  cbn [LoginMessage.Header LoginMessage.UID LoginMessage.ClientID LoginMessage.Port
       LoginMessage.Tags LoginMessage.zero].
  rewrite (Uint32_PutUint32 n), (Z.mod_small n) by (pose proof (len_nonneg tags); lia).
  pose proof (@read_all_truncated tags (Z.to_nat n) tb [] [] e RT W F) as R.
  rewrite app_nil_r in R. rewrite R by (unfold len in Hn; lia).
  rewrite copy_full by (rewrite repeat_length; symmetry; exact Hu).
  cbn [app fst]. rewrite Uint32_PutUint32, Uint16_PutUint16.
  autorewrite with len.
  replace (1 + (len uid + (4 + (2 + (4 + len tb))))) with (27 + len tb)
    by (unfold len; lia).
  reflexivity.
Qed.

End TruncatedTags.

Section TruncatedTagsRuns.
#[local] Existing Instance ed2k_types.
#[local] Existing Instance byte_tags.

Lemma LoginMessage_Decode_missing_tags_witness :
  LoginMessage.Decode LoginMessage.zero
    (frame (B 227) MessageLoginRequest
           (map B (repeat 7 (Z.to_nat 16)) ++ PutUint32 16909060 ++ PutUint16 4662
            ++ PutUint32 3 ++ map B [137; 1; 2; 137; 3; 4]))
  = Returned (LoginMessage.mk (Header.mk (B 227) ((27 + 6) mod 2 ^ 32))
                              (map B (repeat 7 (Z.to_nat 16)))
                              (16909060 mod 2 ^ 32) (4662 mod 2 ^ 16)
                              [(B 1, B 2); (B 3, B 4)])
             (Some ErrShortBuffer).
Proof.
  apply (@LoginMessage_Decode_missing_tags ed2k_types byte_tags
           (B 227) (map B (repeat 7 (Z.to_nat 16))) 16909060 4662 3
           [(B 1, B 2); (B 3, B 4)] (map B [137; 1; 2; 137; 3; 4]) ErrShortBuffer).
  - exact byte_tags_roundtrip.
  - reflexivity.
  - reflexivity.
  - reflexivity.
  - cbn; lia.
Defined.

End TruncatedTagsRuns.

(** * Failing decodes: what the receiver holds *)

Lemma read_all_fail {A : Type} (read : list byte -> error + (A * list byte))
      (count : nat) :
  forall (r : list byte) (acc xs : list A) (e : error),
    read_all read count r acc = (xs, Some e) ->
    exists new rest,
      xs = acc ++ new
      /\ read_seq read r new rest
      /\ read rest = inl e
      /\ (length new < count)%nat.
Proof.
  induction count as [|count IH]; intros r acc xs e; cbn [read_all]; [discriminate|].
  destruct (read r) as [e0|[x r']] eqn:Rd.
  - intros [= <- <-]. exists [], r. rewrite app_nil_r.
    repeat split; [constructor | exact Rd | cbn; lia].
  - intros H. destruct (IH _ _ _ _ H) as (new & rest & -> & RS & F & L).
    exists (x :: new), rest. rewrite <- app_assoc. repeat split.
    + econstructor; eassumption.
    + exact F.
    + cbn [length]; lia.
Qed.

Lemma lt_to_nat (n : nat) (z : Z) : (n < Z.to_nat z)%nat -> Z.of_nat n < z.
Proof. lia. Qed.

Lemma copy_array_prefix (dst : list byte) (data : list byte) (s hash : list byte) (n : Z) :
  length dst = 16%nat ->
  22 <= len data ->
  slice_from data 6 = Some s ->
  copy dst s = (hash, n) ->
  n = 16 /\ slice data 6 22 = Some hash.
Proof.
  intros Hd L S C.
  unfold slice_from in S. rewrite slice_in_range in S by lia.
  assert (Es : s = firstn (Z.to_nat (len data - 6)) (skipn (Z.to_nat 6) data))
    by congruence.
  clear S.
  assert (Ls : (16 <= length s)%nat)
    by (rewrite Es, length_firstn, length_skipn; unfold len in *; lia).
  unfold copy in C. rewrite Hd in C.
  replace (Nat.min 16 (length s)) with 16%nat in C by lia.
  apply pair_equal_spec in C as [<- <-].
  split; [reflexivity|].
  rewrite slice_in_range by lia. f_equal.
  rewrite (skipn_all2 dst) by lia. rewrite app_nil_r.
  subst s. rewrite firstn_firstn.
  f_equal. unfold len in *; lia.
Qed.

Section FailingDecodes.
Context {MT : MessageTypes} {TC : TagCodec} {FC : FileCodec}.

(** C2, as amended. A [Decode] that returns an error either failed in its
    opening validation (header, length checks, discriminant), and then the
    receiver is unchanged, or failed later, and then the receiver holds the
    decoded header and what [late_failure] says: after the second length
    check of [ServerMessage] or [ServerListMessage] nothing else has changed;
    after a failing tag or file read the fixed fields are the ones decoded
    from the buffer and the list is the old list followed by the elements
    read before the failure. *)
Theorem Decode_failure_receiver
        (m m' : Message) (data : list byte) (e : error) :
  Decode m data = Returned m' (Some e) ->
  (precheck m data = Some e /\ m' = m)
  \/ (precheck m data = None
      /\ Header.Decode data = inr (header_of m')
      /\ late_failure m data e m').
Proof.
  intros D; destruct (precheck m data) as [e0|] eqn:P.
  - left. rewrite (Decode_precheck_fail m data P) in D.
    injection D as <- <-; split; reflexivity.
  - right; split; [reflexivity|]; split; [exact (Decode_precheck_pass m data P D)|].
    destruct (precheck_pass m data P) as (header & HD & G & I).
    apply orb_false_iff in G as G'; destruct G' as [_ G2]; apply Z.ltb_ge in G2.
    exists header; split; [exact HD|].
    revert D.
    destruct m as [m|m|m|m|m|m|m|m];
      cbn [checked_size min_length Type_] in *; unfold_Type;
      pass_validation HD G I.
    + unfold slice_from. repeat in_range.
      cbn [LoginMessage.Header LoginMessage.UID LoginMessage.ClientID LoginMessage.Port
           LoginMessage.Tags].
      match goal with
      | |- context [read_all ReadTag ?n ?r ?acc] =>
        destruct (read_all ReadTag n r acc) as [tags e'] eqn:R
      end.
      cbn [outcome_map]. intros [= <- ->].
      destruct (read_all_fail _ _ _ _ R) as (new & rest & -> & RS & F & L).
      do 5 eexists. exists new, rest.
      do 5 (split; [reflexivity|]).
      split; [exact RS|]. split; [exact F|].
      split; [apply lt_to_nat; exact L|].
      split; [|reflexivity].
      intros Hu. rewrite copy_full; [reflexivity|].
      rewrite Hu, length_slice by (unfold HeaderLength, Header.Length in *; lia).
      reflexivity.
    + in_range.
      rewrite (@slice_in_range data 6 8) by (unfold HeaderLength, Header.Length in *; lia).
      match goal with
      | |- context [len data <? ?x] => destruct (len data <? x) eqn:C
      end.
      * cbn [outcome_map]. intros [= <- <-].
        eexists. split; [reflexivity|].
        split; [apply Z.ltb_lt in C; exact C|].
        split; reflexivity.
      * match goal with
        | |- context [match ?x with _ => _ end] => destruct x
        end; cbn [outcome_map]; intros H; discriminate H.
    + repeat match goal with
             | |- context [match ?x with _ => _ end] => destruct x
             end; cbn [outcome_map]; intros H; discriminate H.
    + unfold slice_from. repeat in_range.
      cbn [OfferFilesMessage.Header OfferFilesMessage.Files].
      match goal with
      | |- context [read_all ReadFile ?n ?r ?acc] =>
        destruct (read_all ReadFile n r acc) as [files e'] eqn:R
      end.
      cbn [outcome_map]. intros [= <- ->].
      destruct (read_all_fail _ _ _ _ R) as (new & rest & -> & RS & F & L).
      do 2 eexists. exists new, rest.
      do 2 (split; [reflexivity|]).
      split; [exact RS|]. split; [exact F|].
      split; [apply lt_to_nat; exact L | reflexivity].
    + cbn [outcome_map]. intros H; discriminate H.
    + rewrite !index_in_range by (unfold HeaderLength, Header.Length in *; lia).
      match goal with
      | |- context [len data <? ?x] => destruct (len data <? x) eqn:C
      end.
      * cbn [outcome_map]. intros [= <- <-].
        eexists. split; [reflexivity|].
        split; [apply Z.ltb_lt in C; exact C|].
        split; reflexivity.
      * match goal with
        | |- context [ServerListMessage.read_addrs ?n ?d ?pos ?acc] =>
          destruct (@read_addrs_returns d n pos acc) as (new & R & _);
            [ unfold HeaderLength, Header.Length; lia
            | apply Z.ltb_ge in C;
              match type of C with
              | context [byte.unsigned ?c] => pose proof (byte.unsigned_range c)
              end;
              unfold HeaderLength, Header.Length in *; lia
            | rewrite R ]
        end.
        cbn [outcome_map]. intros H; discriminate H.
    + repeat match goal with
             | |- context [match ?x with _ => _ end] => destruct x
             end; cbn [outcome_map]; intros H; discriminate H.
    + change (HeaderLength + 1) with 6.
      cbn [ServerIdentMessage.Header ServerIdentMessage.Hash ServerIdentMessage.IP
           ServerIdentMessage.Port ServerIdentMessage.Tags].
      destruct (slice_from data 6) as [s|] eqn:S0; [|intros H; discriminate H].
      destruct (copy (ServerIdentMessage.Hash m) s) as [hash n] eqn:C.
      cbn [ServerIdentMessage.Header ServerIdentMessage.Hash ServerIdentMessage.IP
           ServerIdentMessage.Port ServerIdentMessage.Tags].
      destruct (slice data (6 + n) (6 + n + 4)) as [ip|] eqn:S1;
        [|intros H; discriminate H].
      destruct (slice data (6 + n + 4) (6 + n + 4 + 2)) as [port|] eqn:S2;
        [|intros H; discriminate H].
      destruct (slice data (6 + n + 4 + 2) (6 + n + 4 + 2 + 4)) as [count|] eqn:S3;
        [|intros H; discriminate H].
      destruct (slice_from data (6 + n + 4 + 2 + 4)) as [r|] eqn:S4;
        [|intros H; discriminate H].
      destruct (read_all ReadTag (Z.to_nat (Uint32 count)) r (ServerIdentMessage.Tags m))
        as [tags e'] eqn:R.
      cbn [outcome_map]. intros [= <- ->].
      destruct (read_all_fail _ _ _ _ R) as (new & rest & -> & RS & F & L).
      exists s, hash, n, ip, port, count, r, new, rest.
      repeat (split; [first [assumption | reflexivity]|]).
      split; [apply lt_to_nat; exact L|].
      split; [|reflexivity].
      intros Hh. apply (@copy_array_prefix (ServerIdentMessage.Hash m) data s hash n);
        try assumption.
      unfold HeaderLength, Header.Length in *; lia.
Qed.

End FailingDecodes.

Section FailingDecodesRuns.
#[local] Existing Instance ed2k_types.
#[local] Existing Instance byte_tags.
#[local] Existing Instance byte_files.

Lemma Decode_failure_receiver_witness :
  let data := map B ([227; 33; 0; 0; 0; 1] ++ repeat 7 (Z.to_nat 16)
                     ++ [4; 3; 2; 1; 54; 18; 3; 0; 0; 0; 137; 1; 2; 137; 3; 4]) in
  let m := Login (LoginMessage.mk Header.zero (map B (repeat 9 (Z.to_nat 16))) 5 6
                                  [(B 7, B 8)]) in
  let m' := Login (LoginMessage.mk (Header.mk (B 227) 33) (map B (repeat 7 (Z.to_nat 16)))
                                   16909060 4662 [(B 7, B 8); (B 1, B 2); (B 3, B 4)]) in
  (precheck m data = Some ErrShortBuffer /\ m' = m)
  \/ (precheck m data = None
      /\ Header.Decode data = inr (header_of m')
      /\ late_failure m data ErrShortBuffer m').
Proof.
  apply Decode_failure_receiver.
  vm_compute; reflexivity.
Defined.

End FailingDecodesRuns.
